(** * Agentic RAG + Weather assistant: the query pipeline

    A shallow embedding of [nodes.py] (the five pipeline stages),
    [graph.py] (the LangGraph wiring) and of the batch endpoint of
    [main.py], followed by the properties of the pipeline.

    Conventions.
    - Python [str] values are Rocq strings read as sequences of code points
      below 256; [strip] and [lower] follow CPython on that range.
    - A Python exception is represented by its message [str(e)]: every
      handler of the program is [except Exception as e] and only uses
      [str(e)].
    - The language model, the weather API, the vector index and the
      reranker are external services: they are oracles of a [Services]
      record, and each call is logged in a trace of events.
    - [json.loads], the formatting of a value inside an f-string and the
      text of a pydantic validation error belong to the Python runtime and
      its libraries: they are variables of the section. *)

From Stdlib Require Import String Ascii List Bool Arith ZArith QArith Lia.
From Stdlib Require Import DecimalString.
Import ListNotations.

Close Scope Q_scope.
Open Scope nat_scope.
Open Scope list_scope.
Open Scope string_scope.

(** ** Python text operations *)

Module PyStr.

Definition nl : string := String "010"%char EmptyString.
Definition degree : string := String "176"%char EmptyString.

(** [str.isspace] on one code point below 256. *)
Definition isspace (c : ascii) : bool :=
  let n := nat_of_ascii c in
  (((9 <=? n) && (n <=? 13)) || ((28 <=? n) && (n <=? 32))
   || (n =? 133) || (n =? 160))%nat.

(** [str.lower] on one code point below 256. *)
Definition lower_char (c : ascii) : ascii :=
  let n := nat_of_ascii c in
  if (((65 <=? n) && (n <=? 90))
      || ((192 <=? n) && (n <=? 222) && negb (n =? 215)))%nat
  then ascii_of_nat (n + 32) else c.

Fixpoint lower (s : string) : string :=
  match s with
  | EmptyString => EmptyString
  | String c s' => String (lower_char c) (lower s')
  end.

Fixpoint lstrip (s : string) : string :=
  match s with
  | EmptyString => EmptyString
  | String c s' => if isspace c then lstrip s' else s
  end.

Fixpoint rstrip (s : string) : string :=
  match s with
  | EmptyString => EmptyString
  | String c s' =>
      match rstrip s' with
      | EmptyString => if isspace c then EmptyString else String c EmptyString
      | r => String c r
      end
  end.

(** [s.strip()] *)
Definition strip (s : string) : string := rstrip (lstrip s).

(** [s.startswith(p)] *)
Fixpoint startswith (p s : string) : bool :=
  match p, s with
  | EmptyString, _ => true
  | String _ _, EmptyString => false
  | String a p', String b s' => Ascii.eqb a b && startswith p' s'
  end.

(** Scan of [s.replace(old, new)] for a non-empty [old]: [skip] counts
    the characters of a match still to be dropped. *)
Fixpoint replace_scan (old new : string) (skip : nat) (s : string) : string :=
  match s with
  | EmptyString => EmptyString
  | String c s' =>
      match skip with
      | S k => replace_scan old new k s'
      | O =>
          if startswith old s
          then new ++ replace_scan old new (String.length old - 1) s'
          else String c (replace_scan old new 0 s')
      end
  end.

Fixpoint intersperse (new s : string) : string :=
  match s with
  | EmptyString => EmptyString
  | String c s' => String c (new ++ intersperse new s')
  end.

(** [s.replace(old, new)]: every non-overlapping occurrence, leftmost
    first; an empty [old] matches before each character and at the end. *)
Definition replace (old new s : string) : string :=
  match old with
  | EmptyString => new ++ intersperse new s
  | String _ _ => replace_scan old new 0 s
  end.

(** [sep.join(parts)] *)
Fixpoint join (sep : string) (parts : list string) : string :=
  match parts with
  | [] => EmptyString
  | [p] => p
  | p :: rest => p ++ sep ++ join sep rest
  end.

(** [x in s] *)
Fixpoint contains (x s : string) : bool :=
  startswith x s ||
  match s with
  | EmptyString => false
  | String _ s' => contains x s'
  end.

Definition occurs_in (x s : string) : Prop :=
  exists pre post, s = pre ++ x ++ post.

Fixpoint all_space (s : string) : bool :=
  match s with
  | EmptyString => true
  | String c s' => isspace c && all_space s'
  end.

Fixpoint no_backtick (s : string) : bool :=
  match s with
  | EmptyString => true
  | String c s' => negb (Ascii.eqb c "`"%char) && no_backtick s'
  end.

End PyStr.

(** ** Results, exceptions and the trace of external calls *)

Inductive res (A : Type) : Type :=
| Ok (a : A)
| Err (msg : string).
Arguments Ok {A} a.
Arguments Err {A} msg.

(** JSON values as [json.loads] and [response.json()] build them. *)
#[warnings="-register-all"]
Inductive json : Type :=
| JNull
| JBool (b : bool)
| JInt (n : Z)
| JFloat (q : Q)
| JStr (s : string)
| JArr (items : list json)
| JObj (fields : list (string * json)).

(** The five prompt templates of [nodes.py], with the values that fill
    their placeholders. *)
Inductive prompt : Type :=
| RouterPrompt (question : string)
| LocationPrompt (question : string)
| WeatherAnswerPrompt (context question : string)
| PdfAnswerPrompt (context question : string)
| EvalPrompt (question context generation : string).

Inductive event : Type :=
| CallLLM (p : prompt)
| HttpGet (city : string)
| SimilaritySearch (query : string) (k : nat)
| Rerank (query : string) (documents : list string) (top_n : nat).

(** A computation logs the external calls it makes and returns or raises. *)
Definition M (A : Type) : Type := (list event * res A)%type.

Definition ret {A} (a : A) : M A := ([], Ok a).
Definition raise {A} (msg : string) : M A := ([], Err msg).

Definition bind {A B} (m : M A) (f : A -> M B) : M B :=
  match m with
  | (t, Err e) => (t, Err e)
  | (t, Ok a) => let (t', r) := f a in ((t ++ t')%list, r)
  end.

(** [try: m except Exception as e: handler(str(e))] *)
Definition try_except {A} (m : M A) (handler : string -> M A) : M A :=
  match m with
  | (t, Ok a) => (t, Ok a)
  | (t, Err e) => let (t', r) := handler e in ((t ++ t')%list, r)
  end.

Definition lift {A} (r : res A) : M A := ([], r).

Definition trace {A} (m : M A) : list event := fst m.
Definition outcome {A} (m : M A) : res A := snd m.

Notation "x <- m ;; k" := (bind m (fun x => k))
  (at level 61, m at next level, right associativity).

Definition rbind {A B} (r : res A) (f : A -> res B) : res B :=
  match r with
  | Ok a => f a
  | Err e => Err e
  end.

Notation "x <~ r ;; k" := (rbind r (fun x => k))
  (at level 61, r at next level, right associativity).

(** ** Subscripting a decoded JSON value, with the messages of CPython 3.11 *)

Module PyJson.

Fixpoint dict_get (k : string) (fields : list (string * json)) : option json :=
  match fields with
  | [] => None
  | (k', v) :: rest => if String.eqb k k' then Some v else dict_get k rest
  end.

Definition not_subscriptable (ty : string) : string :=
  "'" ++ ty ++ "' object is not subscriptable".

(** [v[k]] for a string key [k]; a missing key raises [KeyError(k)],
    whose message is the quoted key. *)
Definition getitem (v : json) (k : string) : res json :=
  match v with
  | JObj fields =>
      match dict_get k fields with
      | Some x => Ok x
      | None => Err ("'" ++ k ++ "'")
      end
  | JArr _ => Err "list indices must be integers or slices, not str"
  | JStr _ => Err "string indices must be integers, not 'str'"
  | JInt _ => Err (not_subscriptable "int")
  | JFloat _ => Err (not_subscriptable "float")
  | JBool _ => Err (not_subscriptable "bool")
  | JNull => Err (not_subscriptable "NoneType")
  end.

(** [v[0]]; the keys of a decoded object are strings, so [0] is never
    one of them. *)
Definition getitem0 (v : json) : res json :=
  match v with
  | JArr (x :: _) => Ok x
  | JArr [] => Err "list index out of range"
  | JObj _ => Err "0"
  | JStr (String c _) => Ok (JStr (String c EmptyString))
  | JStr EmptyString => Err "string index out of range"
  | JInt _ => Err (not_subscriptable "int")
  | JFloat _ => Err (not_subscriptable "float")
  | JBool _ => Err (not_subscriptable "bool")
  | JNull => Err (not_subscriptable "NoneType")
  end.

End PyJson.

(** ** config.py *)

Definition RETRIEVAL_TOP_K : nat := 10.
Definition RERANK_TOP_N : nat := 3.

(** ** The state of the graph (nodes.py, [GraphState]) *)

Record GraphState : Type := mkState {
  question : string;
  route : string;
  context : string;
  weather_data : json;
  retrieved_docs : list string;
  rerank_scores : list Q;
  generation : string;
  evaluation : json
}.

(** A node returns a dict holding the keys it sets; the graph merges it
    into the state. *)
Inductive update : Type :=
| SetRoute (v : string)
| SetContext (v : string)
| SetWeatherData (v : json)
| SetRetrievedDocs (v : list string)
| SetRerankScores (v : list Q)
| SetGeneration (v : string)
| SetEvaluation (v : json).

Definition patch : Type := list update.

Definition apply_update (st : GraphState) (u : update) : GraphState :=
  match u with
  | SetRoute v =>
      mkState (question st) v (context st) (weather_data st)
        (retrieved_docs st) (rerank_scores st) (generation st) (evaluation st)
  | SetContext v =>
      mkState (question st) (route st) v (weather_data st)
        (retrieved_docs st) (rerank_scores st) (generation st) (evaluation st)
  | SetWeatherData v =>
      mkState (question st) (route st) (context st) v
        (retrieved_docs st) (rerank_scores st) (generation st) (evaluation st)
  | SetRetrievedDocs v =>
      mkState (question st) (route st) (context st) (weather_data st)
        v (rerank_scores st) (generation st) (evaluation st)
  | SetRerankScores v =>
      mkState (question st) (route st) (context st) (weather_data st)
        (retrieved_docs st) v (generation st) (evaluation st)
  | SetGeneration v =>
      mkState (question st) (route st) (context st) (weather_data st)
        (retrieved_docs st) (rerank_scores st) v (evaluation st)
  | SetEvaluation v =>
      mkState (question st) (route st) (context st) (weather_data st)
        (retrieved_docs st) (rerank_scores st) (generation st) v
  end.

Definition merge (st : GraphState) (p : patch) : GraphState :=
  fold_left apply_update p st.

(** ** The external services *)

Record Services : Type := mkServices {
  (** [chain.invoke] on a filled prompt: the model's text, or the error of
      the client. *)
  llm : prompt -> res string;
  (** [requests.get], [raise_for_status] and [response.json()] for a city. *)
  http_get_json : string -> res json;
  (** [get_vector_store], [as_retriever] and [retriever.invoke]: the page
      contents of the candidates. *)
  similarity_search : string -> nat -> res (list string);
  (** [cohere.Client(...).rerank]: the text and the relevance score of
      each result, in the order of the response. *)
  cohere_rerank : string -> list string -> nat -> res (list (string * Q))
}.

Definition call_llm (svc : Services) (p : prompt) : M string :=
  ([CallLLM p], llm svc p).

Definition requests_get (svc : Services) (city : string) : M json :=
  ([HttpGet city], http_get_json svc city).

Definition retriever_invoke (svc : Services) (q : string) (k : nat)
  : M (list string) :=
  ([SimilaritySearch q k], similarity_search svc q k).

Definition co_rerank (svc : Services) (q : string) (docs : list string)
  (n : nat) : M (list (string * Q)) :=
  ([Rerank q docs n], cohere_rerank svc q docs n).

(** ** nodes.py, graph.py and the endpoints of main.py *)

Section Pipeline.

(** [json.loads]: the decoded value, or the message of the error. *)
Variable json_loads : string -> res json.

(** The text an f-string field produces for a decoded value. *)
Variable format_value : json -> string.

(** The text of the error pydantic raises when it builds a response
    model: it lists the rejected fields with their values, in the order
    in which the model declares them. *)
Variable validation_message : list (string * json) -> string.

Import PyStr PyJson.

(** *** Router *)

Definition router_node (svc : Services) (state : GraphState) : M patch :=
  raw <- call_llm svc (RouterPrompt (question state)) ;;
  let route := lower (strip raw) in
  ret [SetRoute route].

(** *** Weather *)

(** The f-string of [weather_node]; its fields are evaluated from left
    to right and the first failing subscript raises. *)
Definition weather_context (weather_data : json) : res string :=
  name <~ getitem weather_data "name" ;;
  sys <~ getitem weather_data "sys" ;;
  country <~ getitem sys "country" ;;
  main <~ getitem weather_data "main" ;;
  temp <~ getitem main "temp" ;;
  main1 <~ getitem weather_data "main" ;;
  feels_like <~ getitem main1 "feels_like" ;;
  main2 <~ getitem weather_data "main" ;;
  humidity <~ getitem main2 "humidity" ;;
  weather <~ getitem weather_data "weather" ;;
  weather0 <~ getitem0 weather ;;
  description <~ getitem weather0 "description" ;;
  wind <~ getitem weather_data "wind" ;;
  speed <~ getitem wind "speed" ;;
  Ok (nl ++ "        Location: " ++ format_value name ++ ", "
         ++ format_value country ++ nl
      ++ "        Temperature: " ++ format_value temp ++ degree ++ "C" ++ nl
      ++ "        Feels Like: " ++ format_value feels_like ++ degree ++ "C"
         ++ nl
      ++ "        Humidity: " ++ format_value humidity ++ "%" ++ nl
      ++ "        Weather: " ++ format_value description ++ nl
      ++ "        Wind Speed: " ++ format_value speed ++ " m/s" ++ nl
      ++ "        ").

Definition weather_node (svc : Services) (state : GraphState) : M patch :=
  raw <- call_llm svc (LocationPrompt (question state)) ;;
  let city := strip raw in
  try_except
    (weather_data <- requests_get svc city ;;
     context <- lift (weather_context weather_data) ;;
     ret [SetWeatherData weather_data; SetContext context])
    (fun e =>
       let error_context := "Error fetching weather data: " ++ e in
       ret [SetWeatherData (JObj []); SetContext error_context]).

(** *** Document retrieval *)

(** The loop over [rerank_response.results]: one append to each list per
    result. *)
Definition collect_results (results : list (string * Q))
  : list string * list Q :=
  fold_left
    (fun acc result =>
       ((fst acc ++ [fst result])%list, (snd acc ++ [snd result])%list))
    results ([], []).

Definition rag_retrieval_node (svc : Services) (state : GraphState)
  : M patch :=
  let question := question state in
  try_except
    (documents <- retriever_invoke svc question RETRIEVAL_TOP_K ;;
     results <- co_rerank svc question documents RERANK_TOP_N ;;
     let (retrieved_texts, rerank_scores) := collect_results results in
     let context := join (nl ++ nl) retrieved_texts in
     ret [SetRetrievedDocs retrieved_texts; SetContext context;
          SetRerankScores rerank_scores])
    (fun e =>
       let error_context := "Error retrieving documents: " ++ e in
       ret [SetRetrievedDocs []; SetContext error_context;
            SetRerankScores []]).

(** *** Generation *)

Definition generation_prompt (state : GraphState) : prompt :=
  if String.eqb (route state) "weather"
  then WeatherAnswerPrompt (context state) (question state)
  else PdfAnswerPrompt (context state) (question state).

Definition generation_node (svc : Services) (state : GraphState) : M patch :=
  generation <- call_llm svc (generation_prompt state) ;;
  ret [SetGeneration generation].

(** *** Evaluation *)

(** The cleaning of the rubric output before it is decoded. *)
Definition clean_eval_result (eval_result : string) : string :=
  let eval_result := strip eval_result in
  if startswith "```json" eval_result
  then replace "```" "" (replace "```json" "" eval_result)
  else if startswith "```" eval_result
       then replace "```" "" eval_result
       else eval_result.

Definition error_evaluation (e : string) : json := JObj [("error", JStr e)].

Definition evaluation_prompt (state : GraphState) : prompt :=
  EvalPrompt (question state) (context state) (generation state).

Definition evaluation_node (svc : Services) (state : GraphState) : M patch :=
  try_except
    (eval_result <- call_llm svc (evaluation_prompt state) ;;
     evaluation <- lift (json_loads (clean_eval_result eval_result)) ;;
     ret [SetEvaluation evaluation])
    (fun e => ret [SetEvaluation (error_evaluation e)]).

(** *** graph.py *)

Definition route_question (state : GraphState) : string :=
  if String.eqb (route state) "weather" then "weather" else "pdf".

Inductive node : Type :=
| START | Router | Weather | RagRetrieval | Generation | Evaluation | END.

(** The mapping given to [add_conditional_edges]. *)
Definition conditional_edges (label : string) : option node :=
  if String.eqb label "weather" then Some Weather
  else if String.eqb label "pdf" then Some RagRetrieval
  else None.

(** The edges of [build_graph]. *)
Definition next_node (n : node) (state : GraphState) : option node :=
  match n with
  | START => Some Router
  | Router => conditional_edges (route_question state)
  | Weather => Some Generation
  | RagRetrieval => Some Generation
  | Generation => Some Evaluation
  | Evaluation => Some END
  | END => None
  end.

Definition run_node (svc : Services) (n : node) (state : GraphState)
  : M patch :=
  match n with
  | Router => router_node svc state
  | Weather => weather_node svc state
  | RagRetrieval => rag_retrieval_node svc state
  | Generation => generation_node svc state
  | Evaluation => evaluation_node svc state
  | START | END => ret []
  end.

(** The execution of the compiled graph from node [n]: run the node,
    merge its patch, follow the edge; [fuel] bounds the number of steps
    as the recursion limit of the graph does. *)
Fixpoint run (svc : Services) (fuel : nat) (n : node) (state : GraphState)
  : M GraphState :=
  match n with
  | END => ret state
  | _ =>
      match fuel with
      | O => raise "Recursion limit reached"
      | S fuel' =>
          p <- run_node svc n state ;;
          let state' := merge state p in
          match next_node n state' with
          | Some n' => run svc fuel' n' state'
          | None => raise "No edge to follow"
          end
      end
  end.

Definition recursion_limit : nat := 25.

(** [graph_app.invoke] *)
Definition graph_invoke (svc : Services) (state : GraphState)
  : M GraphState :=
  run svc recursion_limit START state.

(** *** main.py *)

Definition initial_state (question : string) : GraphState :=
  mkState question "" "" (JObj []) [] [] "" (JObj []).

Definition process_query_async (svc : Services) (question : string)
  : M GraphState :=
  graph_invoke svc (initial_state question).

(** [QueryResponse]: the fields of a response that was built. *)
Record QueryResponse : Type := mkResponse {
  r_question : string;
  r_answer : string;
  r_route : string;
  r_context : string;
  r_weather_data : option json;
  r_retrieved_docs : option (list string);
  r_rerank_scores : option (list Q);
  r_evaluation : option json
}.

(** A field declared [Optional[Dict]] takes [None] or a dict; any other
    value given for it is rejected. [JNull] is the [None] that
    [json.loads] returns for [null]. *)
Definition rejected_dict (field : string) (v : option json)
  : list (string * json) :=
  match v with
  | None | Some JNull | Some (JObj _) => []
  | Some x => [(field, x)]
  end.

Definition optional_dict (v : option json) : option json :=
  match v with
  | Some (JObj fields) => Some (JObj fields)
  | _ => None
  end.

(** The constructor [QueryResponse(...)]. The text fields and the two
    list fields always hold values of their declared types here; the two
    [Optional[Dict]] fields are checked, and one error reports every
    rejected field. *)
Definition new_QueryResponse (question answer route context : string)
  (weather_data : option json) (retrieved_docs : option (list string))
  (rerank_scores : option (list Q)) (evaluation : option json)
  : res QueryResponse :=
  match (rejected_dict "weather_data" weather_data
         ++ rejected_dict "evaluation" evaluation)%list with
  | [] =>
      Ok (mkResponse question answer route context
            (optional_dict weather_data) retrieved_docs rerank_scores
            (optional_dict evaluation))
  | errors => Err (validation_message errors)
  end.

(** The [/query] endpoint: the response is built inside the [try], so
    the failure of the pipeline and the failure of the construction both
    end in the detail of an HTTP 500. *)
Definition query (svc : Services) (question : string) : res QueryResponse :=
  match outcome (process_query_async svc question) with
  | Ok result =>
      match
        new_QueryResponse question (generation result) (route result)
          (context result)
          (if String.eqb (route result) "weather"
           then Some (weather_data result) else None)
          (if String.eqb (route result) "pdf"
           then Some (retrieved_docs result) else None)
          (if String.eqb (route result) "pdf"
           then Some (rerank_scores result) else None)
          (Some (evaluation result))
      with
      | Ok response => Ok response
      | Err e => Err ("Error processing query: " ++ e)
      end
  | Err e => Err ("Error processing query: " ++ e)
  end.

(** The body of the loop of [batch_query] for one question and the
    corresponding entry of [asyncio.gather(..., return_exceptions=True)]. *)
Definition batch_response (question : string) (result : res GraphState)
  : res QueryResponse :=
  match result with
  | Err e =>
      new_QueryResponse question ("Error: " ++ e) "error" "" None None None
        None
  | Ok result =>
      new_QueryResponse question (generation result) (route result)
        (context result) (Some (weather_data result))
        (Some (retrieved_docs result)) (Some (rerank_scores result))
        (Some (evaluation result))
  end.

(** The loop of [batch_query] over the questions and the gathered
    results: no handler surrounds it, so the first response that cannot
    be built ends the whole request. *)
Fixpoint batch_responses (pairs : list (string * res GraphState))
  : res (list QueryResponse) :=
  match pairs with
  | [] => Ok []
  | (question, result) :: rest =>
      response <~ batch_response question result ;;
      responses <~ batch_responses rest ;;
      Ok (response :: responses)
  end.

(** The [/batch-query] endpoint: the list of responses, or the error
    that leaves the handler (the elapsed time it also reports is left
    out). *)
Definition batch_query (svc : Services) (questions : list string)
  : res (list QueryResponse) :=
  let results :=
    map (fun question => outcome (process_query_async svc question))
      questions in
  batch_responses (combine questions results).

End Pipeline.

(** ** utils.py and the start-up of main.py *)

Definition QDRANT_URL : string := "http://localhost:6333".
Definition QDRANT_COLLECTION : string := "pdf_documents".
Definition PDF_PATH : string := "documents/apj-abdul-kalam-biography.pdf".

(** What these functions reach outside the program: the file system, the
    PDF reader, the text splitter, and the Qdrant server, whose state has
    the type [store]. A read leaves the state alone; a write returns the
    new state, also when it raises. Building a client or a vector-store
    handle is taken not to fail, and the number of points of a collection
    that can be read is taken to be a number. *)
Record Backend (store : Type) : Type := mkBackend {
  (** [os.path.exists] *)
  path_exists : string -> bool;
  (** [fitz.open] and [page.get_text()] for each page, in order. *)
  pdf_pages : string -> res (list string);
  (** [RecursiveCharacterTextSplitter(...).split_text] *)
  split_text : string -> list string;
  (** [client.get_collection(name).points_count] *)
  get_collection : string -> store -> res nat;
  (** [client.create_collection] *)
  create_collection : string -> store -> res unit * store;
  (** [QdrantVectorStore.from_documents(..., force_recreate=False)] *)
  from_documents : list string -> string -> store -> res unit * store;
  (** [vectorstore.add_documents] *)
  add_documents : list string -> string -> store -> res unit * store;
  (** [client.delete_collection] *)
  delete_collection : string -> store -> res unit * store
}.
Arguments path_exists {store} _ _.
Arguments pdf_pages {store} _ _.
Arguments split_text {store} _ _.
Arguments get_collection {store} _ _ _.
Arguments create_collection {store} _ _ _.
Arguments from_documents {store} _ _ _ _.
Arguments add_documents {store} _ _ _ _.
Arguments delete_collection {store} _ _ _.

Section VectorStore.

Variable store : Type.
Variable backend : Backend store.

(** The loop [text += page.get_text()] of [extract_text_from_pdf]. *)
Definition extract_text_from_pdf (pdf_path : string) : res string :=
  pages <~ pdf_pages backend pdf_path ;;
  Ok (fold_left (fun text page => text ++ page) pages EmptyString).

Definition create_vector_store (pdf_path : string) (s : store)
  : res unit * store :=
  match extract_text_from_pdf pdf_path with
  | Err e => (Err e, s)
  | Ok text =>
      let chunks := split_text backend text in
      match get_collection backend QDRANT_COLLECTION s with
      | Ok existing_count =>
          if (0 <? existing_count)%nat then (Ok tt, s)
          else from_documents backend chunks QDRANT_COLLECTION s
      | Err _ =>
          match create_collection backend QDRANT_COLLECTION s with
          | (Ok _, s') => from_documents backend chunks QDRANT_COLLECTION s'
          | (Err e, s') => (Err e, s')
          end
      end
  end.

Definition add_documents_to_store (pdf_path : string) (s : store)
  : res unit * store :=
  match extract_text_from_pdf pdf_path with
  | Err e => (Err e, s)
  | Ok text =>
      let chunks := split_text backend text in
      add_documents backend chunks QDRANT_COLLECTION s
  end.

(** [initialize_vector_store]: whether the store is ready. *)
Definition initialize_vector_store (s : store) : bool * store :=
  if path_exists backend PDF_PATH then
    match create_vector_store PDF_PATH s with
    | (Ok _, s') =>
        match get_collection backend QDRANT_COLLECTION s' with
        | Ok _ => (true, s')
        | Err _ => (false, s')
        end
    | (Err _, s') => (false, s')
    end
  else (false, s).

End VectorStore.

Arguments extract_text_from_pdf {store} backend pdf_path.
Arguments create_vector_store {store} backend pdf_path s.
Arguments add_documents_to_store {store} backend pdf_path s.
Arguments initialize_vector_store {store} backend s.

(** ** Predicates used in the statements *)

(** A well-formed weather response: every subscript of the template of
    [weather_node] succeeds, and yields the seven values named here. *)
Definition well_formed_weather
  (j name country temp feels_like humidity description speed : json) : Prop :=
  exists sys main weather weather0 wind,
    PyJson.getitem j "name" = Ok name /\
    PyJson.getitem j "sys" = Ok sys /\
    PyJson.getitem sys "country" = Ok country /\
    PyJson.getitem j "main" = Ok main /\
    PyJson.getitem main "temp" = Ok temp /\
    PyJson.getitem main "feels_like" = Ok feels_like /\
    PyJson.getitem main "humidity" = Ok humidity /\
    PyJson.getitem j "weather" = Ok weather /\
    PyJson.getitem0 weather = Ok weather0 /\
    PyJson.getitem weather0 "description" = Ok description /\
    PyJson.getitem j "wind" = Ok wind /\
    PyJson.getitem wind "speed" = Ok speed.

(** A fetch failure with message [msg]: the request, its status check or
    the decoding of its body raises, or the decoded body lacks a field of
    the template. *)
Definition fetch_fails (format_value : json -> string) (svc : Services)
  (city msg : string) : Prop :=
  http_get_json svc city = Err msg \/
  exists j, http_get_json svc city = Ok j /\
            weather_context format_value j = Err msg.

Definition in_unit_interval (q : Q) : Prop := (0 <= q)%Q /\ (q <= 1)%Q.

(** The prompts of the stages whose language-model call is made outside
    any handler. *)
Definition unguarded_prompt (question : string) (p : prompt) : Prop :=
  p = RouterPrompt question \/
  p = LocationPrompt question \/
  (exists context, p = WeatherAnswerPrompt context question) \/
  (exists context, p = PdfAnswerPrompt context question).

(** The runs of the pipeline for a question, case by case: the trace of
    external calls and the result of a run that fails in the router, in
    the branch stage or in the generation, and of a run that ends. *)
Definition routed_state (q raw : string) : GraphState :=
  merge (initial_state q) [SetRoute (PyStr.lower (PyStr.strip raw))].

Definition branch_of (raw : string) : node :=
  if String.eqb (PyStr.lower (PyStr.strip raw)) "weather"
  then Weather else RagRetrieval.

Inductive pipeline_run (json_loads : string -> res json)
  (format_value : json -> string) (svc : Services) (q : string)
  : list event -> res GraphState -> Prop :=
| RunRouterFailed (e : string) :
    llm svc (RouterPrompt q) = Err e ->
    pipeline_run json_loads format_value svc q
      [CallLLM (RouterPrompt q)] (Err e)
| RunBranchFailed (raw : string) (t : list event) (e : string) :
    llm svc (RouterPrompt q) = Ok raw ->
    run_node json_loads format_value svc (branch_of raw) (routed_state q raw)
    = (t, Err e) ->
    pipeline_run json_loads format_value svc q
      (CallLLM (RouterPrompt q) :: t) (Err e)
| RunGenerationFailed (raw : string) (t : list event) (p : patch)
    (e : string) :
    llm svc (RouterPrompt q) = Ok raw ->
    run_node json_loads format_value svc (branch_of raw) (routed_state q raw)
    = (t, Ok p) ->
    llm svc (generation_prompt (merge (routed_state q raw) p)) = Err e ->
    pipeline_run json_loads format_value svc q
      (CallLLM (RouterPrompt q)
         :: t ++ [CallLLM (generation_prompt (merge (routed_state q raw) p))])
      (Err e)
| RunDone (raw : string) (t : list event) (p : patch) (g : string)
    (ev : json) :
    llm svc (RouterPrompt q) = Ok raw ->
    run_node json_loads format_value svc (branch_of raw) (routed_state q raw)
    = (t, Ok p) ->
    llm svc (generation_prompt (merge (routed_state q raw) p)) = Ok g ->
    outcome
      (evaluation_node json_loads svc
         (merge (merge (routed_state q raw) p) [SetGeneration g]))
    = Ok [SetEvaluation ev] ->
    pipeline_run json_loads format_value svc q
      (CallLLM (RouterPrompt q)
         :: t ++ [CallLLM (generation_prompt (merge (routed_state q raw) p));
                  CallLLM (evaluation_prompt
                             (merge (merge (routed_state q raw) p)
                                [SetGeneration g]))])
      (Ok (merge (merge (merge (routed_state q raw) p) [SetGeneration g])
             [SetEvaluation ev])).

(** The values a response accepts as an evaluation: a dict or [None]. *)
Definition dict_or_null (v : json) : bool :=
  match v with
  | JObj _ | JNull => true
  | _ => false
  end.

(** The external calls of the weather path and of the document path for
    the question [q]. *)
Definition weather_event (q : string) (ev : event) : Prop :=
  ev = CallLLM (LocationPrompt q) \/
  (exists city, ev = HttpGet city) \/
  (exists ctx, ev = CallLLM (WeatherAnswerPrompt ctx q)) \/
  (exists ctx g, ev = CallLLM (EvalPrompt q ctx g)).

Definition document_event (q : string) (ev : event) : Prop :=
  ev = SimilaritySearch q RETRIEVAL_TOP_K \/
  (exists documents, ev = Rerank q documents RERANK_TOP_N) \/
  (exists ctx, ev = CallLLM (PdfAnswerPrompt ctx q)) \/
  (exists ctx g, ev = CallLLM (EvalPrompt q ctx g)).

(** What a Qdrant client is expected to do with the number of points of a
    collection: a new collection has none, and writing documents adds
    their number. *)
Definition counts_points {store : Type} (b : Backend store) : Prop :=
  (forall c s s',
      create_collection b c s = (Ok tt, s') ->
      get_collection b c s' = Ok 0) /\
  (forall docs c s s' n,
      get_collection b c s = Ok n ->
      from_documents b docs c s = (Ok tt, s') ->
      get_collection b c s' = Ok (n + length docs)) /\
  (forall docs c s s' n,
      get_collection b c s = Ok n ->
      add_documents b docs c s = (Ok tt, s') ->
      get_collection b c s' = Ok (n + length docs)).

(** ** Concrete services and runtime tables used by the examples *)

Module Samples.

Import PyStr.

(** [str()] of the scalars that occur in the examples below: text,
    integers, booleans and [None]. No float, list or dict is formatted
    there. *)
Definition format_scalar (v : json) : string :=
  match v with
  | JStr s => s
  | JInt n => NilZero.string_of_int (Z.to_int n)
  | JBool true => "True"
  | JBool false => "False"
  | JNull => "None"
  | _ => ""
  end.

Definition dq : string := String "034"%char EmptyString.

(** The rubric output of the evaluation example, bare and fenced. *)
Definition rubric_json : string :=
  "{" ++ dq ++ "relevance" ++ dq ++ ":8," ++ dq ++ "accuracy" ++ dq ++ ":9,"
  ++ dq ++ "completeness" ++ dq ++ ":7}".

Definition rubric_fenced : string :=
  "```json" ++ nl ++ rubric_json ++ nl ++ "```".

Definition rubric_scores : json :=
  JObj [("relevance", JInt 8); ("accuracy", JInt 9); ("completeness", JInt 7)].

(** [json.loads] on the texts the examples decode: the rubric object,
    bare or between two newlines, and the number 8; every other text of
    the examples is not JSON. *)
Definition json_loads_table (s : string) : res json :=
  if String.eqb s rubric_json || String.eqb s (nl ++ rubric_json ++ nl)
  then Ok rubric_scores
  else if String.eqb s "8" then Ok (JInt 8)
  else Err "Expecting value: line 1 column 1 (char 0)".

(** A stand-in for the text of a validation error: the names of the
    rejected fields. *)
Definition validation_text (errors : list (string * json)) : string :=
  "validation error for QueryResponse: " ++ PyStr.join ", " (map fst errors).

(** A language model that answers each kind of prompt with a fixed
    result, as the mocked chain of the tests does. *)
Definition mock_llm (route city answer rubric : res string)
  : prompt -> res string :=
  fun p =>
    match p with
    | RouterPrompt _ => route
    | LocationPrompt _ => city
    | WeatherAnswerPrompt _ _ | PdfAnswerPrompt _ _ => answer
    | EvalPrompt _ _ _ => rubric
    end.

Definition no_weather_api : string -> res json :=
  fun _ => Err "Timeout error".

Definition no_index : string -> nat -> res (list string) :=
  fun _ _ => Err "Qdrant connection failed".

Definition no_reranker : string -> list string -> nat
                         -> res (list (string * Q)) :=
  fun _ _ _ => Err "Reranker unavailable".

(** The response of [test_weather_node_success]. *)
Definition london_response : json :=
  JObj [("name", JStr "London");
        ("sys", JObj [("country", JStr "GB")]);
        ("main", JObj [("temp", JInt 15); ("feels_like", JInt 13);
                       ("humidity", JInt 80)]);
        ("weather", JArr [JObj [("description", JStr "cloudy")]]);
        ("wind", JObj [("speed", JInt 5)])].

Definition london_state : GraphState :=
  mkState "What's the weather in London?" "weather" "" (JObj []) [] []
    "" (JObj []).

Definition svc_london : Services :=
  mkServices
    (mock_llm (Ok (" Weather" ++ nl)) (Ok "London")
       (Ok "It is 15 degrees and cloudy in London.") (Ok rubric_fenced))
    (fun city =>
       if String.eqb city "London" then Ok london_response
       else Err "404 Client Error: Not Found")
    no_index no_reranker.

(** The weather API times out ([test_weather_06_api_timeout_error]). *)
Definition pune_state : GraphState :=
  mkState "Weather in Pune?" "weather" "" (JObj []) [] [] "" (JObj []).

Definition svc_pune_degraded : Services :=
  mkServices
    (mock_llm (Ok "weather") (Ok "Pune")
       (Ok "I could not fetch the weather for Pune.") (Ok "not json"))
    no_weather_api no_index no_reranker.

(** The same, with a language model that fails at the answer. *)
Definition svc_pune_no_answer : Services :=
  mkServices
    (mock_llm (Ok "weather") (Ok "Pune") (Err "Connection error.")
       (Ok rubric_json))
    no_weather_api no_index no_reranker.

(** The language model fails when asked for the city. *)
Definition svc_no_city : Services :=
  mkServices
    (mock_llm (Ok "weather") (Err "Rate limit exceeded")
       (Ok "It is sunny.") (Ok rubric_json))
    (fun _ => Ok london_response) no_index no_reranker.

(** Documents and reranking in the manner of [test_rag_01]: ten
    candidates, and a reranker that answers with four results. *)
Definition kalam_documents : list string :=
  ["Kalam was born on October 15, 1931 in Rameswaram.";
   "Kalam served as the 11th President of India from 2002 to 2007.";
   "Kalam played a pivotal role in the Pokhran-II nuclear tests in 1998.";
   "He received the Bharat Ratna in 1997.";
   "Kalam was a scientist at ISRO and DRDO.";
   "His books include Wings of Fire, India 2020 and Ignited Minds.";
   "Kalam passed away on July 27, 2015 at IIM Shillong.";
   "He was known for his humility and dedication to education.";
   "The SLV-III project made India capable of launching satellites.";
   "The Pokhran tests were conducted under his scientific leadership."].

Definition four_scores : list Q :=
  [(95 # 100)%Q; (90 # 100)%Q; (85 # 100)%Q; (80 # 100)%Q].

Definition kalam_state : GraphState :=
  mkState "Who was APJ Abdul Kalam?" "pdf" "" (JObj []) [] [] "" (JObj []).

Definition svc_kalam : Services :=
  mkServices
    (mock_llm (Ok "pdf") (Ok "Rameswaram")
       (Ok "Kalam was the 11th President of India.") (Ok rubric_json))
    no_weather_api
    (fun _ _ => Ok kalam_documents)
    (fun _ documents _ => Ok (combine (firstn 4 documents) four_scores)).

(** The classifier answers with a word that is no route. *)
Definition svc_banana : Services :=
  mkServices
    (mock_llm (Ok "banana") (Ok "Rameswaram")
       (Ok "Kalam was the 11th President of India.") (Ok rubric_json))
    no_weather_api
    (fun _ _ => Ok kalam_documents)
    (fun _ documents _ => Ok (combine (firstn 4 documents) four_scores)).

(** An empty index, with a reranker that refuses an empty list of
    documents. *)
Definition svc_empty_index : Services :=
  mkServices
    (mock_llm (Ok "pdf") (Ok "Rameswaram")
       (Ok "The documents do not say.") (Ok rubric_json))
    no_weather_api
    (fun _ _ => Ok [])
    (fun _ documents _ =>
       match documents with
       | [] => Err "documents must not be empty"
       | _ => Ok []
       end).

(** A batch of three questions; the classifier fails on the second. *)
Definition batch_questions : list string :=
  ["What's the weather in London?"; "Is the router up?";
   "Who was APJ Abdul Kalam?"].

Definition svc_batch : Services :=
  mkServices
    (fun p =>
       match p with
       | RouterPrompt q =>
           if String.eqb q "Is the router up?" then Err "Connection error."
           else if contains "weather" q then Ok "weather" else Ok "pdf"
       | LocationPrompt _ => Ok "London"
       | WeatherAnswerPrompt _ _ => Ok "It is 15 degrees and cloudy in London."
       | PdfAnswerPrompt _ _ => Ok "Kalam was the 11th President of India."
       | EvalPrompt _ _ _ => Ok rubric_json
       end)
    (fun _ => Ok london_response)
    (fun _ _ => Ok kalam_documents)
    (fun _ documents _ => Ok (combine (firstn 3 documents) four_scores)).

(** The batch services, with an evaluator that answers with a bare
    number. *)
Definition svc_eight : Services :=
  mkServices
    (fun p =>
       match p with
       | EvalPrompt _ _ _ => Ok "8"
       | _ => llm svc_batch p
       end)
    (http_get_json svc_batch) (similarity_search svc_batch)
    (cohere_rerank svc_batch).

(** The weather API answers with a body that has none of the fields of
    the template. *)
Definition not_found_body : json :=
  JObj [("cod", JStr "404"); ("message", JStr "city not found")].

Definition svc_not_found : Services :=
  mkServices
    (mock_llm (Ok "weather") (Ok " Atlantis ") (Ok "I could not find it.")
       (Ok rubric_json))
    (fun _ => Ok not_found_body) no_index no_reranker.

(** A server that holds at most one collection, given by its documents,
    and a reader that knows one two-page file; each page becomes a chunk. *)
Definition one_collection : Type := option (list string).

Definition sample_backend : Backend one_collection :=
  mkBackend one_collection
    (fun path => String.eqb path PDF_PATH)
    (fun path =>
       if String.eqb path PDF_PATH
       then Ok ["Kalam was born in Rameswaram. "; "He became President in 2002."]
       else Err "no such file")
    (fun text =>
       match text with
       | EmptyString => []
       | _ => ["Kalam was born in Rameswaram. "; "He became President in 2002."]
       end)
    (fun _ s =>
       match s with
       | Some docs => Ok (length docs)
       | None => Err "Collection not found"
       end)
    (fun _ s =>
       match s with
       | Some _ => (Err "Collection already exists", s)
       | None => (Ok tt, Some [])
       end)
    (fun docs _ s =>
       match s with
       | Some old => (Ok tt, Some (old ++ docs)%list)
       | None => (Ok tt, Some docs)
       end)
    (fun docs _ s =>
       match s with
       | Some old => (Ok tt, Some (old ++ docs)%list)
       | None => (Err "Collection not found", s)
       end)
    (fun _ _ => (Ok tt, None)).

End Samples.

(** * Properties *)

(** ** Text lemmas *)

Module PyStrFacts.

Import PyStr.

Lemma sapp_nil_r (s : string) : s ++ EmptyString = s.
Proof. induction s as [|c s IH]; simpl; [reflexivity | now rewrite IH]. Qed.

Lemma sapp_assoc (a b c : string) : (a ++ b) ++ c = a ++ (b ++ c).
Proof. induction a as [|x a IH]; simpl; [reflexivity | now rewrite IH]. Qed.

Lemma occurs_in_middle (pre x post : string) : occurs_in x (pre ++ x ++ post).
Proof. now exists pre, post. Qed.

Lemma occurs_in_app_r (x pre s : string) :
  occurs_in x s -> occurs_in x (pre ++ s).
Proof.
  intros (a & b & ->). exists (pre ++ a), b. now rewrite sapp_assoc.
Qed.

Lemma occurs_in_app_l (x s post : string) :
  occurs_in x s -> occurs_in x (s ++ post).
Proof.
  intros (a & b & ->). exists a, (b ++ post). now rewrite !sapp_assoc.
Qed.

Lemma lstrip_spaces (ws s : string) :
  all_space ws = true -> lstrip (ws ++ s) = lstrip s.
Proof.
  induction ws as [|c ws IH]; simpl; intros H; [reflexivity|].
  apply andb_prop in H as [Hc Hws]. rewrite Hc. now apply IH.
Qed.

Lemma rstrip_all_space (ws : string) :
  all_space ws = true -> rstrip ws = EmptyString.
Proof.
  induction ws as [|c ws IH]; simpl; intros H; [reflexivity|].
  apply andb_prop in H as [Hc Hws]. now rewrite (IH Hws), Hc.
Qed.

Lemma rstrip_spaces (s ws : string) :
  all_space ws = true -> rstrip (s ++ ws) = rstrip s.
Proof.
  intros H. induction s as [|c s IH]; simpl.
  - now apply rstrip_all_space.
  - now rewrite IH.
Qed.

Lemma rstrip_ends_nonspace (s : string) (c : ascii) :
  isspace c = false ->
  rstrip (s ++ String c EmptyString) = s ++ String c EmptyString.
Proof.
  intros Hc. induction s as [|a s IH]; simpl.
  - now rewrite Hc.
  - rewrite IH. destruct s; reflexivity.
Qed.

(** [strip] removes a frame of white space around a text that starts and
    ends with a character that is not white space. *)
Lemma strip_framed (ws ws' mid : string) (a z : ascii) :
  all_space ws = true -> all_space ws' = true ->
  isspace a = false -> isspace z = false ->
  strip (ws ++ (String a mid ++ String z EmptyString) ++ ws')
  = String a mid ++ String z EmptyString.
Proof.
  intros Hws Hws' Ha Hz. unfold strip.
  rewrite lstrip_spaces by assumption.
  simpl lstrip. rewrite Ha.
  change (String a ((mid ++ String z EmptyString) ++ ws'))
    with ((String a mid ++ String z EmptyString) ++ ws').
  rewrite rstrip_spaces by assumption.
  change (String a mid ++ String z EmptyString)
    with ((String a mid) ++ String z EmptyString).
  now apply rstrip_ends_nonspace.
Qed.

Lemma replace_scan_clean (old' new body rest : string) :
  no_backtick body = true ->
  replace_scan (String "`"%char old') new 0 (body ++ rest)
  = body ++ replace_scan (String "`"%char old') new 0 rest.
Proof.
  induction body as [|c body IH]; intros H; [reflexivity|].
  simpl in H. apply andb_prop in H as [Hc Hb].
  cbn [append replace_scan startswith].
  replace (Ascii.eqb "`"%char c) with false.
  - simpl. now rewrite IH.
  - rewrite Ascii.eqb_sym. symmetry. now apply negb_true_iff.
Qed.

(** The two replacements of the fenced branch leave the body alone. *)
Lemma unfence_json (body : string) :
  no_backtick body = true ->
  replace "```" EmptyString
    (replace "```json" EmptyString ("```json" ++ body ++ "```")) = body.
Proof.
  intros H. unfold replace.
  assert (E : replace_scan "```json" EmptyString 0
                ("```json" ++ body ++ "```") = body ++ "```").
  { cbn [append replace_scan startswith Ascii.eqb Bool.eqb andb String.length
         Nat.sub].
    rewrite replace_scan_clean by assumption. now simpl. }
  rewrite E, replace_scan_clean by assumption.
  simpl. apply sapp_nil_r.
Qed.

Lemma unfence_plain (body : string) :
  no_backtick body = true ->
  replace "```" EmptyString ("```" ++ body ++ "```") = body.
Proof.
  intros H. unfold replace.
  cbn [append replace_scan startswith Ascii.eqb Bool.eqb andb String.length
       Nat.sub].
  rewrite replace_scan_clean by assumption.
  simpl. apply sapp_nil_r.
Qed.

Lemma strip_fenced (ws ws' opener body : string) :
  all_space ws = true -> all_space ws' = true ->
  strip (ws ++ (String "`"%char opener ++ body ++ "```") ++ ws')
  = String "`"%char opener ++ body ++ "```".
Proof.
  intros Hws Hws'.
  assert (E : String "`"%char opener ++ body ++ "```"
              = String "`"%char (opener ++ body ++ "``")
                ++ String "`"%char EmptyString).
  { simpl. f_equal. now rewrite !sapp_assoc. }
  rewrite E. now apply strip_framed.
Qed.

Lemma startswith_json_fence (body : string) :
  startswith "json" body = false ->
  startswith "json" (body ++ "```") = false.
Proof.
  destruct body as [|c1 [|c2 [|c3 [|c4 body]]]];
    cbn [startswith append]; try reflexivity;
    repeat match goal with
      | |- context [Ascii.eqb ?a ?b] =>
          is_var b; destruct (Ascii.eqb a b)
      end; cbn [andb]; auto.
Qed.

Lemma startswith_fence_prefix (s : string) :
  startswith "```" s = false -> startswith "```json" s = false.
Proof.
  destruct s as [|c1 [|c2 [|c3 s]]];
    cbn [startswith]; try reflexivity;
    repeat match goal with
      | |- context [Ascii.eqb ?a ?b] =>
          is_var b; destruct (Ascii.eqb a b)
      end; cbn [andb]; auto; discriminate.
Qed.

(** Removing the fence marker leaves no fence marker. *)

Lemma startswith_tick (s : string) :
  startswith "`" s = true -> exists s', s = String "`"%char s'.
Proof.
  destruct s as [|c s]; cbn [startswith]; [discriminate|].
  rewrite andb_true_r. intros H. apply Ascii.eqb_eq in H. subst c.
  now exists s.
Qed.

Lemma replace_fence_step (c : ascii) (s : string) :
  startswith "```" (String c s) = false ->
  replace_scan "```" EmptyString 0 (String c s)
  = String c (replace_scan "```" EmptyString 0 s).
Proof. intros H. cbn [replace_scan]. now rewrite H. Qed.

Lemma replace_fence_keeps_start (s : string) :
  (startswith "`" s = false ->
   startswith "`" (replace_scan "```" EmptyString 0 s) = false) /\
  (startswith "``" s = false ->
   startswith "``" (replace_scan "```" EmptyString 0 s) = false).
Proof.
  induction s as [|c s [IH1 IH2]]; [now split|].
  destruct (startswith "```" (String c s)) eqn:Hf.
  - destruct s as [|c2 s]; [cbn [startswith] in Hf; now destruct (Ascii.eqb _ _)|].
    cbn [startswith] in Hf. apply andb_prop in Hf as [Hc Hrest].
    apply andb_prop in Hrest as [Hc2 _].
    split; cbn [startswith]; rewrite Hc, ?Hc2; cbn [andb]; discriminate.
  - rewrite (replace_fence_step c s Hf). split; cbn [startswith].
    + now rewrite !andb_true_r.
    + destruct (Ascii.eqb "`" c); cbn [andb]; auto.
Qed.

Lemma replace_fence_scan_clean (s : string) (skip : nat) :
  contains "```" (replace_scan "```" EmptyString skip s) = false.
Proof.
  revert skip. induction s as [|c s IH]; intros skip; [reflexivity|].
  destruct skip as [|k]; [|cbn [replace_scan]; apply IH].
  destruct (startswith "```" (String c s)) eqn:Hf.
  - cbn [replace_scan]. rewrite Hf. apply IH.
  - rewrite (replace_fence_step c s Hf).
    cbn [contains]. rewrite IH, orb_false_r.
    cbn [startswith] in Hf |- *.
    destruct (Ascii.eqb "`" c); cbn [andb] in *; [|reflexivity].
    now apply (proj2 (replace_fence_keeps_start s)).
Qed.

Lemma replace_fence_clean (s : string) :
  contains "```" (replace "```" EmptyString s) = false.
Proof. apply replace_fence_scan_clean. Qed.

(** [strip] and [lower] are idempotent and commute. *)

Lemma isspace_lower_char (c : ascii) : isspace (lower_char c) = isspace c.
Proof. destruct c as [[] [] [] [] [] [] [] []]; reflexivity. Qed.

Lemma lower_char_idem (c : ascii) : lower_char (lower_char c) = lower_char c.
Proof. destruct c as [[] [] [] [] [] [] [] []]; reflexivity. Qed.

Lemma lower_idem (s : string) : lower (lower s) = lower s.
Proof.
  induction s as [|c s IH]; simpl; [reflexivity|].
  now rewrite lower_char_idem, IH.
Qed.

Lemma lower_lstrip (s : string) : lower (lstrip s) = lstrip (lower s).
Proof.
  induction s as [|c s IH]; [reflexivity|].
  cbn [lstrip lower]. rewrite isspace_lower_char.
  now destruct (isspace c).
Qed.

Lemma lower_rstrip (s : string) : lower (rstrip s) = rstrip (lower s).
Proof.
  induction s as [|c s IH]; [reflexivity|].
  cbn [rstrip lower]. rewrite <- IH, isspace_lower_char.
  destruct (rstrip s); cbn [lower]; [now destruct (isspace c)|reflexivity].
Qed.

Lemma lower_strip (s : string) : lower (strip s) = strip (lower s).
Proof. unfold strip. now rewrite lower_rstrip, lower_lstrip. Qed.

Lemma rstrip_idem (s : string) : rstrip (rstrip s) = rstrip s.
Proof.
  induction s as [|c s IH]; [reflexivity|].
  cbn [rstrip]. destruct (rstrip s) as [|a r] eqn:E.
  - destruct (isspace c) eqn:Hc; [reflexivity|]. cbn [rstrip]. now rewrite Hc.
  - change (rstrip (String c (String a r)))
      with (match rstrip (String a r) with
            | EmptyString =>
                if isspace c then EmptyString else String c EmptyString
            | String x y => String c (String x y)
            end).
    now rewrite IH.
Qed.

Lemma lstrip_starts_nonspace (s : string) :
  lstrip s = EmptyString \/
  exists c s', lstrip s = String c s' /\ isspace c = false.
Proof.
  induction s as [|c s IH]; [now left|].
  cbn [lstrip]. destruct (isspace c) eqn:Hc; [exact IH|].
  right. now exists c, s.
Qed.

Lemma lstrip_rstrip_nonspace (c : ascii) (s : string) :
  isspace c = false ->
  lstrip (rstrip (String c s)) = rstrip (String c s).
Proof.
  intros Hc. cbn [rstrip].
  destruct (rstrip s); rewrite ?Hc; cbn [lstrip]; now rewrite Hc.
Qed.

Lemma strip_idem (s : string) : strip (strip s) = strip s.
Proof.
  unfold strip.
  destruct (lstrip_starts_nonspace s) as [E | (c & s' & E & Hc)]; rewrite E.
  - reflexivity.
  - rewrite (lstrip_rstrip_nonspace c s' Hc). apply rstrip_idem.
Qed.

End PyStrFacts.

(** ** The stages and the graph *)

Section PipelineFacts.

Variable json_loads : string -> res json.
Variable format_value : json -> string.
Variable validation_message : list (string * json) -> string.

Import PyStr PyJson PyStrFacts.

Local Abbreviation weather_node' := (weather_node format_value).
Local Abbreviation evaluation_node' := (evaluation_node json_loads).
Local Abbreviation run' := (run json_loads format_value).
Local Abbreviation process' := (process_query_async json_loads format_value).

(** *** One step of the graph from each node *)

Lemma run_END svc fuel st : run' svc fuel END st = ret st.
Proof. destruct fuel; reflexivity. Qed.

Lemma run_START svc fuel st :
  run' svc (S fuel) START st = run' svc fuel Router st.
Proof.
  cbn [run run_node ret bind merge fold_left next_node].
  destruct (run' svc fuel Router st); reflexivity.
Qed.

Lemma run_Weather svc fuel st :
  run' svc (S fuel) Weather st
  = (p <- weather_node' svc st ;; run' svc fuel Generation (merge st p)).
Proof. reflexivity. Qed.

Lemma run_RagRetrieval svc fuel st :
  run' svc (S fuel) RagRetrieval st
  = (p <- rag_retrieval_node svc st ;; run' svc fuel Generation (merge st p)).
Proof. reflexivity. Qed.

Lemma run_Generation svc fuel st :
  run' svc (S fuel) Generation st
  = (p <- generation_node svc st ;; run' svc fuel Evaluation (merge st p)).
Proof. reflexivity. Qed.

Lemma run_Evaluation svc fuel st :
  run' svc (S fuel) Evaluation st
  = (p <- evaluation_node' svc st ;; ret (merge st p)).
Proof.
  cbn [run run_node next_node]. f_equal.
  destruct fuel; reflexivity.
Qed.

Lemma conditional_edges_route_question st :
  conditional_edges (route_question st)
  = Some (if String.eqb (route st) "weather" then Weather else RagRetrieval).
Proof. unfold route_question. now destruct (String.eqb (route st) "weather"). Qed.

Lemma run_Router svc fuel st :
  run' svc (S fuel) Router st
  = (p <- router_node svc st ;;
     run' svc fuel
       (if String.eqb (route (merge st p)) "weather"
        then Weather else RagRetrieval)
       (merge st p)).
Proof.
  cbn [run run_node next_node]. unfold bind.
  destruct (router_node svc st) as [t [p|e]]; [|reflexivity].
  now rewrite conditional_edges_route_question.
Qed.

Lemma outcome_pair {A} (t : list event) (r : res A) : outcome (t, r) = r.
Proof. reflexivity. Qed.

Lemma outcome_bind_ok {A B} (m : M A) (f : A -> M B) (a : A) :
  outcome m = Ok a -> outcome (bind m f) = outcome (f a).
Proof.
  destruct m as [t r]; simpl; intros ->. simpl. now destruct (f a).
Qed.

Lemma outcome_bind_err {A B} (m : M A) (f : A -> M B) (e : string) :
  outcome m = Err e -> outcome (bind m f) = Err e.
Proof. destruct m as [t r]; simpl; now intros ->. Qed.

Lemma trace_bind_ok {A B} (m : M A) (f : A -> M B) (a : A) :
  outcome m = Ok a -> trace (bind m f) = (trace m ++ trace (f a))%list.
Proof.
  destruct m as [t r]; simpl; intros ->. simpl. now destruct (f a).
Qed.

Lemma trace_bind_err {A B} (m : M A) (f : A -> M B) (e : string) :
  outcome m = Err e -> trace (bind m f) = trace m.
Proof. destruct m as [t r]; simpl; now intros ->. Qed.

(** *** Router *)

Lemma router_node_ok svc st raw :
  llm svc (RouterPrompt (question st)) = Ok raw ->
  router_node svc st
  = ([CallLLM (RouterPrompt (question st))], Ok [SetRoute (lower (strip raw))]).
Proof. unfold router_node, call_llm, bind. now intros ->. Qed.

Lemma router_node_err svc st e :
  llm svc (RouterPrompt (question st)) = Err e ->
  router_node svc st = ([CallLLM (RouterPrompt (question st))], Err e).
Proof. unfold router_node, call_llm, bind. now intros ->. Qed.

(** C1. Branch selection is a function of the normalized classifier
    output: when the trimmed, lowercased output of the classifier is
    exactly [weather] the graph continues at the weather node, on any
    other output it continues at the document retrieval node, and these
    are the only two nodes an edge from the router can lead to. *)
Theorem branch_selection (svc : Services) (st : GraphState) (raw : string)
  (fuel : nat) :
  llm svc (RouterPrompt (question st)) = Ok raw ->
  let label := lower (strip raw) in
  let branch :=
    if String.eqb label "weather" then Weather else RagRetrieval in
  let routed := merge st [SetRoute label] in
  outcome (router_node svc st) = Ok [SetRoute label] /\
  next_node Router routed = Some branch /\
  run' svc (S fuel) Router st
  = (CallLLM (RouterPrompt (question st))
       :: trace (run' svc fuel branch routed),
     outcome (run' svc fuel branch routed)) /\
  (forall any : GraphState,
      next_node Router any = Some Weather \/
      next_node Router any = Some RagRetrieval).
Proof.
  intros Hraw label branch routed.
  assert (Hroute : route routed = label) by reflexivity.
  repeat split.
  - now rewrite (router_node_ok _ _ _ Hraw).
  - cbn [next_node]. now rewrite conditional_edges_route_question, Hroute.
  - rewrite run_Router, (router_node_ok _ _ _ Hraw).
    cbn [bind]. fold label. fold routed. rewrite Hroute. fold branch.
    now destruct (run' svc fuel branch routed).
  - intros any. cbn [next_node].
    rewrite conditional_edges_route_question.
    destruct (String.eqb (route any) "weather"); auto.
Qed.

(** *** Document retrieval *)

Lemma collect_results_from (results : list (string * Q)) texts scores :
  fold_left
    (fun acc result =>
       ((fst acc ++ [fst result])%list, (snd acc ++ [snd result])%list))
    results (texts, scores)
  = ((texts ++ map fst results)%list, (scores ++ map snd results)%list).
Proof.
  revert texts scores.
  induction results as [|r results IH]; intros texts scores; simpl.
  - now rewrite !app_nil_r.
  - rewrite IH. now rewrite <- !app_assoc.
Qed.

Lemma collect_results_map (results : list (string * Q)) :
  collect_results results = (map fst results, map snd results).
Proof. unfold collect_results. now rewrite collect_results_from. Qed.

Lemma rag_node_reranked svc st documents results :
  similarity_search svc (question st) RETRIEVAL_TOP_K = Ok documents ->
  cohere_rerank svc (question st) documents RERANK_TOP_N = Ok results ->
  rag_retrieval_node svc st
  = ([SimilaritySearch (question st) RETRIEVAL_TOP_K;
      Rerank (question st) documents RERANK_TOP_N],
     Ok [SetRetrievedDocs (map fst results);
         SetContext (join (nl ++ nl) (map fst results));
         SetRerankScores (map snd results)]).
Proof.
  intros Hs Hr.
  unfold rag_retrieval_node, retriever_invoke, co_rerank, try_except, bind.
  rewrite Hs, Hr, collect_results_map. reflexivity.
Qed.

Lemma rag_node_rerank_failed svc st documents e :
  similarity_search svc (question st) RETRIEVAL_TOP_K = Ok documents ->
  cohere_rerank svc (question st) documents RERANK_TOP_N = Err e ->
  rag_retrieval_node svc st
  = ([SimilaritySearch (question st) RETRIEVAL_TOP_K;
      Rerank (question st) documents RERANK_TOP_N],
     Ok [SetRetrievedDocs [];
         SetContext ("Error retrieving documents: " ++ e);
         SetRerankScores []]).
Proof.
  intros Hs Hr.
  unfold rag_retrieval_node, retriever_invoke, co_rerank, try_except, bind.
  rewrite Hs, Hr. reflexivity.
Qed.

Lemma rag_node_search_failed svc st e :
  similarity_search svc (question st) RETRIEVAL_TOP_K = Err e ->
  rag_retrieval_node svc st
  = ([SimilaritySearch (question st) RETRIEVAL_TOP_K],
     Ok [SetRetrievedDocs [];
         SetContext ("Error retrieving documents: " ++ e);
         SetRerankScores []]).
Proof.
  intros Hs.
  unfold rag_retrieval_node, retriever_invoke, co_rerank, try_except, bind.
  rewrite Hs. reflexivity.
Qed.

Lemma rag_node_never_raises svc st :
  exists p, outcome (rag_retrieval_node svc st) = Ok p.
Proof.
  destruct (similarity_search svc (question st) RETRIEVAL_TOP_K)
    as [documents|e] eqn:Hs.
  - destruct (cohere_rerank svc (question st) documents RERANK_TOP_N)
      as [results|e] eqn:Hr.
    + rewrite (rag_node_reranked _ _ _ _ Hs Hr). now eexists.
    + rewrite (rag_node_rerank_failed _ _ _ _ Hs Hr). now eexists.
  - rewrite (rag_node_search_failed _ _ _ Hs). now eexists.
Qed.

(** C3, as the code has it. When coarse retrieval returns no candidate,
    the stage still calls the reranker, once and with the empty list of
    documents. The retrieved passages and the scores are empty and the
    context is the empty string when the reranker returns no result; when
    the reranker raises, the passages and the scores are empty and the
    context is the error text of the stage. *)
Theorem empty_candidates_still_reranked (svc : Services) (st : GraphState) :
  similarity_search svc (question st) RETRIEVAL_TOP_K = Ok [] ->
  trace (rag_retrieval_node svc st)
  = [SimilaritySearch (question st) RETRIEVAL_TOP_K;
     Rerank (question st) [] RERANK_TOP_N] /\
  (cohere_rerank svc (question st) [] RERANK_TOP_N = Ok [] ->
   outcome (rag_retrieval_node svc st)
   = Ok [SetRetrievedDocs []; SetContext EmptyString; SetRerankScores []]) /\
  (forall e,
      cohere_rerank svc (question st) [] RERANK_TOP_N = Err e ->
      outcome (rag_retrieval_node svc st)
      = Ok [SetRetrievedDocs [];
            SetContext ("Error retrieving documents: " ++ e);
            SetRerankScores []]).
Proof.
  intros Hs. repeat split.
  - destruct (cohere_rerank svc (question st) [] RERANK_TOP_N)
      as [results|e] eqn:Hr.
    + now rewrite (rag_node_reranked _ _ _ _ Hs Hr).
    + now rewrite (rag_node_rerank_failed _ _ _ _ Hs Hr).
  - intros Hr. now rewrite (rag_node_reranked _ _ _ _ Hs Hr).
  - intros e Hr. now rewrite (rag_node_rerank_failed _ _ _ _ Hs Hr).
Qed.

Lemma nth_error_map_fst_snd {A B} (l : list (A * B)) i a b :
  nth_error l i = Some (a, b) <->
  nth_error (map fst l) i = Some a /\ nth_error (map snd l) i = Some b.
Proof.
  revert i. induction l as [|[x y] l IH]; intros [|i]; simpl.
  - split; [discriminate | now intros [? _]].
  - split; [discriminate | now intros [? _]].
  - split.
    + now intros [= -> ->].
    + now intros [[= ->] [= ->]].
  - apply IH.
Qed.

(** C6, as the code has it. On a successful rerank the stage asks for
    the top [RERANK_TOP_N = 3] results and passes on what the reranker
    returns, without truncating, validating or sorting it: the passages
    and the scores have the length of the returned list, the i-th
    passage and the i-th score are those of the i-th result, so there are
    at most three of them and every score is in [0,1] whenever the
    response of the reranker is so, and the context is the passages
    joined by a blank line in that order. *)
Theorem rerank_order_preserved (svc : Services) (st : GraphState)
  (documents : list string) (results : list (string * Q)) :
  similarity_search svc (question st) RETRIEVAL_TOP_K = Ok documents ->
  cohere_rerank svc (question st) documents RERANK_TOP_N = Ok results ->
  exists passages scores,
    outcome (rag_retrieval_node svc st)
    = Ok [SetRetrievedDocs passages;
          SetContext (join (nl ++ nl) passages);
          SetRerankScores scores] /\
    retrieved_docs
      (merge st [SetRetrievedDocs passages;
                 SetContext (join (nl ++ nl) passages);
                 SetRerankScores scores]) = passages /\
    rerank_scores
      (merge st [SetRetrievedDocs passages;
                 SetContext (join (nl ++ nl) passages);
                 SetRerankScores scores]) = scores /\
    In (Rerank (question st) documents 3)
       (trace (rag_retrieval_node svc st)) /\
    length passages = length results /\
    length scores = length results /\
    (forall i text score,
        nth_error results i = Some (text, score) <->
        nth_error passages i = Some text /\
        nth_error scores i = Some score) /\
    (length results <= RERANK_TOP_N -> length passages <= 3) /\
    (Forall (fun r => in_unit_interval (snd r)) results ->
     Forall in_unit_interval scores).
Proof.
  intros Hs Hr.
  exists (map fst results), (map snd results).
  rewrite (rag_node_reranked _ _ _ _ Hs Hr).
  repeat match goal with |- _ /\ _ => split end; try reflexivity.
  - simpl. right. now left.
  - apply length_map.
  - apply length_map.
  - intros i text score. apply nth_error_map_fst_snd.
  - now rewrite length_map.
  - intros H. now apply Forall_map.
Qed.

(** *** Weather *)

Lemma weather_node_no_city svc st e :
  llm svc (LocationPrompt (question st)) = Err e ->
  weather_node' svc st = ([CallLLM (LocationPrompt (question st))], Err e).
Proof. unfold weather_node, call_llm, bind. now intros ->. Qed.

Lemma weather_node_fetched svc st raw j ctx :
  llm svc (LocationPrompt (question st)) = Ok raw ->
  http_get_json svc (strip raw) = Ok j ->
  weather_context format_value j = Ok ctx ->
  weather_node' svc st
  = ([CallLLM (LocationPrompt (question st)); HttpGet (strip raw)],
     Ok [SetWeatherData j; SetContext ctx]).
Proof.
  intros Hl Hg Hc.
  unfold weather_node, call_llm, requests_get, try_except, lift, bind.
  rewrite Hl, Hg, Hc. reflexivity.
Qed.

Lemma weather_node_failed svc st raw msg :
  llm svc (LocationPrompt (question st)) = Ok raw ->
  fetch_fails format_value svc (strip raw) msg ->
  weather_node' svc st
  = ([CallLLM (LocationPrompt (question st)); HttpGet (strip raw)],
     Ok [SetWeatherData (JObj []);
         SetContext ("Error fetching weather data: " ++ msg)]).
Proof.
  intros Hl [Hg | (j & Hg & Hc)];
    unfold weather_node, call_llm, requests_get, try_except, lift, bind;
    rewrite Hl, Hg; [|rewrite Hc]; reflexivity.
Qed.

Lemma weather_node_cases svc st raw :
  llm svc (LocationPrompt (question st)) = Ok raw ->
  exists p,
    weather_node' svc st
    = ([CallLLM (LocationPrompt (question st)); HttpGet (strip raw)], Ok p).
Proof.
  intros Hl.
  destruct (http_get_json svc (strip raw)) as [j|e] eqn:Hg.
  - destruct (weather_context format_value j) as [ctx|e] eqn:Hc.
    + rewrite (weather_node_fetched _ _ _ _ _ Hl Hg Hc). now eexists.
    + rewrite (weather_node_failed _ _ _ e Hl); [now eexists|].
      right. now exists j.
  - rewrite (weather_node_failed _ _ _ e Hl); [now eexists|]. now left.
Qed.

Lemma weather_context_well_formed
  j name country temp feels_like humidity description speed :
  well_formed_weather j name country temp feels_like humidity description
    speed ->
  weather_context format_value j
  = Ok (nl ++ "        Location: " ++ format_value name ++ ", "
           ++ format_value country ++ nl
        ++ "        Temperature: " ++ format_value temp ++ degree ++ "C"
           ++ nl
        ++ "        Feels Like: " ++ format_value feels_like ++ degree
           ++ "C" ++ nl
        ++ "        Humidity: " ++ format_value humidity ++ "%" ++ nl
        ++ "        Weather: " ++ format_value description ++ nl
        ++ "        Wind Speed: " ++ format_value speed ++ " m/s" ++ nl
        ++ "        ").
Proof.
  intros (sys & main & weather & weather0 & wind & H1 & H2 & H3 & H4 & H5
          & H6 & H7 & H8 & H9 & H10 & H11 & H12).
  unfold weather_context, rbind.
  now rewrite H1, H2, H3, H4, H5, H6, H7, H8, H9, H10, H11, H12.
Qed.

(** C4. For a well-formed response of the weather API, the context the
    weather stage builds contains the six labelled fields (Location,
    Temperature, Feels Like, Humidity, Weather, Wind Speed), each with
    the values of the response formatted as they are, and the whole
    response is stored as the weather data of the state. *)
Theorem weather_context_complete (svc : Services) (st : GraphState)
  (raw : string) (j name country temp feels_like humidity description
                    speed : json) :
  llm svc (LocationPrompt (question st)) = Ok raw ->
  http_get_json svc (strip raw) = Ok j ->
  well_formed_weather j name country temp feels_like humidity description
    speed ->
  exists ctx,
    outcome (weather_node' svc st) = Ok [SetWeatherData j; SetContext ctx] /\
    weather_data (merge st [SetWeatherData j; SetContext ctx]) = j /\
    context (merge st [SetWeatherData j; SetContext ctx]) = ctx /\
    occurs_in ("Location: " ++ format_value name ++ ", "
               ++ format_value country ++ nl) ctx /\
    occurs_in ("Temperature: " ++ format_value temp ++ degree ++ "C" ++ nl)
      ctx /\
    occurs_in ("Feels Like: " ++ format_value feels_like ++ degree ++ "C"
               ++ nl) ctx /\
    occurs_in ("Humidity: " ++ format_value humidity ++ "%" ++ nl) ctx /\
    occurs_in ("Weather: " ++ format_value description ++ nl) ctx /\
    occurs_in ("Wind Speed: " ++ format_value speed ++ " m/s" ++ nl) ctx.
Proof.
  intros Hl Hg Hwf.
  pose proof (weather_context_well_formed _ _ _ _ _ _ _ _ Hwf) as Hc.
  eexists. rewrite (weather_node_fetched _ _ _ _ _ Hl Hg Hc).
  split; [reflexivity|]. split; [reflexivity|]. split; [reflexivity|].
  pose (loc := "Location: " ++ format_value name ++ ", "
              ++ format_value country ++ nl).
  pose (tmp := "Temperature: " ++ format_value temp ++ degree ++ "C" ++ nl).
  pose (fl := "Feels Like: " ++ format_value feels_like ++ degree ++ "C"
             ++ nl).
  pose (hum := "Humidity: " ++ format_value humidity ++ "%" ++ nl).
  pose (wea := "Weather: " ++ format_value description ++ nl).
  pose (win := "Wind Speed: " ++ format_value speed ++ " m/s" ++ nl).
  pose (ind := "        ").
  assert (E : nl ++ "        Location: " ++ format_value name ++ ", "
              ++ format_value country ++ nl
              ++ "        Temperature: " ++ format_value temp ++ degree
              ++ "C" ++ nl
              ++ "        Feels Like: " ++ format_value feels_like ++ degree
              ++ "C" ++ nl
              ++ "        Humidity: " ++ format_value humidity ++ "%" ++ nl
              ++ "        Weather: " ++ format_value description ++ nl
              ++ "        Wind Speed: " ++ format_value speed ++ " m/s" ++ nl
              ++ "        "
              = (nl ++ ind) ++ loc ++ ind ++ tmp ++ ind ++ fl ++ ind ++ hum
                ++ ind ++ wea ++ ind ++ win ++ ind).
  { subst loc tmp fl hum wea win ind. simpl.
    repeat (rewrite sapp_assoc; simpl). reflexivity. }
  rewrite E. clear E.
  repeat match goal with |- _ /\ _ => split end.
  - apply occurs_in_middle.
  - do 2 apply occurs_in_app_r. apply occurs_in_app_r with (pre := ind).
    apply occurs_in_middle with (pre := EmptyString).
  - do 4 apply occurs_in_app_r. apply occurs_in_app_r with (pre := ind).
    apply occurs_in_middle with (pre := EmptyString).
  - do 6 apply occurs_in_app_r. apply occurs_in_app_r with (pre := ind).
    apply occurs_in_middle with (pre := EmptyString).
  - do 8 apply occurs_in_app_r. apply occurs_in_app_r with (pre := ind).
    apply occurs_in_middle with (pre := EmptyString).
  - do 10 apply occurs_in_app_r. apply occurs_in_app_r with (pre := ind).
    apply occurs_in_middle with (pre := EmptyString).
Qed.

(** *** Generation and evaluation *)

Lemma generation_node_ok svc st g :
  llm svc (generation_prompt st) = Ok g ->
  generation_node svc st
  = ([CallLLM (generation_prompt st)], Ok [SetGeneration g]).
Proof. unfold generation_node, call_llm, bind. now intros ->. Qed.

Lemma generation_node_err svc st e :
  llm svc (generation_prompt st) = Err e ->
  generation_node svc st = ([CallLLM (generation_prompt st)], Err e).
Proof. unfold generation_node, call_llm, bind. now intros ->. Qed.

(** The value the evaluation stage stores, case by case. *)
Lemma evaluation_node_cases svc st :
  exists ev,
    evaluation_node' svc st
    = ([CallLLM (evaluation_prompt st)], Ok [SetEvaluation ev]) /\
    (forall e, llm svc (evaluation_prompt st) = Err e ->
               ev = error_evaluation e) /\
    (forall raw e,
        llm svc (evaluation_prompt st) = Ok raw ->
        json_loads (clean_eval_result raw) = Err e ->
        ev = error_evaluation e) /\
    (forall raw v,
        llm svc (evaluation_prompt st) = Ok raw ->
        json_loads (clean_eval_result raw) = Ok v ->
        ev = v).
Proof.
  unfold evaluation_node, call_llm, try_except, lift, bind.
  destruct (llm svc (evaluation_prompt st)) as [raw|e].
  - destruct (json_loads (clean_eval_result raw)) as [v|e] eqn:Hj.
    + exists v. repeat split; congruence.
    + exists (error_evaluation e). repeat split; congruence.
  - exists (error_evaluation e). repeat split; congruence.
Qed.

Lemma run_Evaluation_done svc fuel st :
  exists ev,
    evaluation_node' svc st
    = ([CallLLM (evaluation_prompt st)], Ok [SetEvaluation ev]) /\
    run' svc (S fuel) Evaluation st
    = ([CallLLM (evaluation_prompt st)], Ok (merge st [SetEvaluation ev])).
Proof.
  destruct (evaluation_node_cases svc st) as (ev & E & _).
  exists ev. split; [assumption|].
  rewrite run_Evaluation, E. reflexivity.
Qed.

Lemma run_Generation_ok svc fuel st g :
  llm svc (generation_prompt st) = Ok g ->
  exists ev,
    run' svc (S (S fuel)) Generation st
    = ([CallLLM (generation_prompt st);
        CallLLM (evaluation_prompt (merge st [SetGeneration g]))],
       Ok (merge (merge st [SetGeneration g]) [SetEvaluation ev])).
Proof.
  intros Hg.
  destruct (run_Evaluation_done svc fuel (merge st [SetGeneration g]))
    as (ev & _ & E).
  exists ev.
  rewrite run_Generation, (generation_node_ok _ _ _ Hg).
  cbn [bind]. rewrite E. reflexivity.
Qed.

Lemma run_Generation_err svc fuel st e :
  llm svc (generation_prompt st) = Err e ->
  run' svc (S fuel) Generation st
  = ([CallLLM (generation_prompt st)], Err e).
Proof.
  intros Hg. rewrite run_Generation, (generation_node_err _ _ _ Hg).
  reflexivity.
Qed.

(** C7. The evaluation stage decodes the rubric output after trimming
    it and removing the code-fence markers: a body fenced as JSON, a body
    in a plain fence and a bare text are all reduced to the text to
    decode. When the decoding succeeds the decoded value is the
    evaluation; when it fails the stage does not raise but stores a map
    whose only field is the error message, and from the evaluation node
    the graph reaches its end with that evaluation. *)
Theorem evaluation_parse_policy (svc : Services) (st : GraphState)
  (raw : string) (fuel : nat) :
  llm svc (EvalPrompt (question st) (context st) (generation st)) = Ok raw ->
  (forall ws body ws',
      all_space ws = true -> all_space ws' = true ->
      no_backtick body = true ->
      raw = ws ++ ("```json" ++ body ++ "```") ++ ws' ->
      clean_eval_result raw = body) /\
  (forall ws body ws',
      all_space ws = true -> all_space ws' = true ->
      no_backtick body = true -> startswith "json" body = false ->
      raw = ws ++ ("```" ++ body ++ "```") ++ ws' ->
      clean_eval_result raw = body) /\
  (startswith "```" (strip raw) = false ->
   clean_eval_result raw = strip raw) /\
  exists ev,
    outcome (evaluation_node' svc st) = Ok [SetEvaluation ev] /\
    (forall v, json_loads (clean_eval_result raw) = Ok v -> ev = v) /\
    (forall e, json_loads (clean_eval_result raw) = Err e ->
               ev = JObj [("error", JStr e)]) /\
    outcome (run' svc (S fuel) Evaluation st)
    = Ok (merge st [SetEvaluation ev]) /\
    evaluation (merge st [SetEvaluation ev]) = ev.
Proof.
  intros Hraw.
  repeat match goal with |- _ /\ _ => split end.
  - intros ws body ws' Hws Hws' Hb ->. unfold clean_eval_result.
    rewrite (strip_fenced ws ws' "``json" body) by assumption.
    change (startswith "```json" ("```json" ++ body ++ "```")) with true.
    now apply unfence_json.
  - intros ws body ws' Hws Hws' Hb Hj ->. unfold clean_eval_result.
    rewrite (strip_fenced ws ws' "``" body) by assumption.
    change (startswith "```json" ("```" ++ body ++ "```"))
      with (startswith "json" (body ++ "```")).
    rewrite (startswith_json_fence _ Hj).
    change (startswith "```" ("```" ++ body ++ "```")) with true.
    now apply unfence_plain.
  - intros Hbare. unfold clean_eval_result.
    now rewrite (startswith_fence_prefix _ Hbare), Hbare.
  - destruct (evaluation_node_cases svc st) as (ev & E & _ & Herr & Hok).
    destruct (run_Evaluation_done svc fuel st) as (ev' & E' & R).
    assert (ev' = ev) by congruence. subst ev'.
    exists ev. rewrite E, R.
    repeat match goal with |- _ /\ _ => split end; try reflexivity.
    + intros v Hv. now apply (Hok raw).
    + intros e He. now apply (Herr raw).
Qed.

(** *** The whole pipeline *)

Lemma question_merge (st : GraphState) (p : patch) :
  question (merge st p) = question st.
Proof.
  revert st. induction p as [|u p IH]; intros st; [reflexivity|].
  simpl. rewrite IH. now destruct u.
Qed.

Lemma generation_prompt_unguarded (st : GraphState) :
  unguarded_prompt (question st) (generation_prompt st).
Proof.
  unfold unguarded_prompt, generation_prompt.
  destruct (String.eqb (route st) "weather"); eauto 6.
Qed.

Lemma generation_prompt_not_eval (st : GraphState) a b c :
  generation_prompt st <> EvalPrompt a b c.
Proof.
  unfold generation_prompt.
  now destruct (String.eqb (route st) "weather").
Qed.

Lemma process_unfold svc q :
  exists fuel,
    process' svc q = run' svc (S (S (S (S fuel)))) Router (initial_state q).
Proof.
  exists 20. unfold process_query_async, graph_invoke, recursion_limit.
  apply run_START.
Qed.

Lemma run_Router_err svc fuel st e :
  llm svc (RouterPrompt (question st)) = Err e ->
  run' svc (S fuel) Router st = ([CallLLM (RouterPrompt (question st))], Err e).
Proof.
  intros Hr. rewrite run_Router.
  now rewrite (router_node_err svc st e Hr).
Qed.

Lemma run_Router_ok svc fuel st raw :
  llm svc (RouterPrompt (question st)) = Ok raw ->
  run' svc (S fuel) Router st
  = (CallLLM (RouterPrompt (question st))
       :: trace (run' svc fuel
                   (if String.eqb (lower (strip raw)) "weather"
                    then Weather else RagRetrieval)
                   (merge st [SetRoute (lower (strip raw))])),
     outcome (run' svc fuel
                (if String.eqb (lower (strip raw)) "weather"
                 then Weather else RagRetrieval)
                (merge st [SetRoute (lower (strip raw))]))).
Proof.
  intros Hr. rewrite run_Router.
  rewrite (router_node_ok svc st raw Hr).
  cbn [bind].
  change (route (merge st [SetRoute (lower (strip raw))]))
    with (lower (strip raw)).
  generalize (run' svc fuel
                (if String.eqb (lower (strip raw)) "weather"
                 then Weather else RagRetrieval)
                (merge st [SetRoute (lower (strip raw))])).
  now intros [t r].
Qed.

(** A branch stage that returned: the rest of the run is the generation
    and then the evaluation. *)
Lemma run_after_branch svc fuel st t p :
  (forall a b c, ~ In (CallLLM (EvalPrompt a b c)) t) ->
  match llm svc (generation_prompt (merge st p)) with
  | Ok g =>
      exists ev,
        bind (t, Ok p)
          (fun p => run' svc (S (S fuel)) Generation (merge st p))
        = ((t ++ [CallLLM (generation_prompt (merge st p));
                  CallLLM (evaluation_prompt
                             (merge (merge st p) [SetGeneration g]))])%list,
           Ok (merge (merge (merge st p) [SetGeneration g])
                 [SetEvaluation ev]))
  | Err e =>
      bind (t, Ok p) (fun p => run' svc (S (S fuel)) Generation (merge st p))
      = ((t ++ [CallLLM (generation_prompt (merge st p))])%list, Err e) /\
      forall a b c,
        ~ In (CallLLM (EvalPrompt a b c))
            (t ++ [CallLLM (generation_prompt (merge st p))])
  end.
Proof.
  intros Ht.
  destruct (llm svc (generation_prompt (merge st p))) as [g|e] eqn:Hg.
  - destruct (run_Generation_ok svc fuel (merge st p) g Hg) as (ev & E).
    exists ev. unfold bind at 1. now rewrite E.
  - split.
    + unfold bind at 1.
      now rewrite (run_Generation_err svc (S fuel) (merge st p) e Hg).
    + intros a b c Hin. apply in_app_or in Hin as [Hin|[Hin|[]]].
      * now apply (Ht a b c).
      * injection Hin as Hin.
        now apply (generation_prompt_not_eval (merge st p) a b c).
Qed.

Lemma branch_node_cases svc fuel (weather : bool) st :
  (exists e,
      weather = true /\
      llm svc (LocationPrompt (question st)) = Err e /\
      run' svc (S fuel) (if weather then Weather else RagRetrieval) st
      = ([CallLLM (LocationPrompt (question st))], Err e)) \/
  (exists t p,
      run' svc (S fuel) (if weather then Weather else RagRetrieval) st
      = bind (t, Ok p) (fun p => run' svc fuel Generation (merge st p)) /\
      forall a b c, ~ In (CallLLM (EvalPrompt a b c)) t).
Proof.
  destruct weather.
  - rewrite run_Weather.
    destruct (llm svc (LocationPrompt (question st))) as [raw|e] eqn:Hl.
    + right. destruct (weather_node_cases svc st raw Hl) as (p & E).
      eexists _, p. rewrite E. split; [reflexivity|].
      intros a b c [H|[H|[]]]; discriminate.
    + left. exists e. rewrite (weather_node_no_city svc st e Hl).
      now repeat split.
  - right. rewrite run_RagRetrieval.
    destruct (similarity_search svc (question st) RETRIEVAL_TOP_K)
      as [documents|e] eqn:Hs.
    + destruct (cohere_rerank svc (question st) documents RERANK_TOP_N)
        as [results|e] eqn:Hr.
      * rewrite (rag_node_reranked _ _ _ _ Hs Hr).
        eexists _, _. split; [reflexivity|].
        intros a b c [H|[H|[]]]; discriminate.
      * rewrite (rag_node_rerank_failed _ _ _ _ Hs Hr).
        eexists _, _. split; [reflexivity|].
        intros a b c [H|[H|[]]]; discriminate.
    + rewrite (rag_node_search_failed _ _ _ Hs).
      eexists _, _. split; [reflexivity|].
      intros a b c [H|[]]; discriminate.
Qed.

(** Every failure of the pipeline is the failure of a language-model call
    made by the router, by the extraction of the city or by the generation,
    and the evaluation had not been entered. *)
Lemma process_failure svc q e :
  outcome (process' svc q) = Err e ->
  (exists p, unguarded_prompt q p /\ llm svc p = Err e /\
             In (CallLLM p) (trace (process' svc q))) /\
  (forall a b c,
      ~ In (CallLLM (EvalPrompt a b c)) (trace (process' svc q))).
Proof.
  destruct (process_unfold svc q) as (fuel & ->).
  assert (Hq0 : question (initial_state q) = q) by reflexivity.
  destruct (llm svc (RouterPrompt q)) as [raw|e0] eqn:Hr;
    rewrite <- Hq0 in Hr.
  - rewrite (run_Router_ok svc _ _ raw Hr). rewrite Hq0.
    unfold outcome at 1, trace at 1, trace at 2. unfold fst at 1 2, snd at 1.
    remember (merge (initial_state q) [SetRoute (lower (strip raw))]) as st
      eqn:Hst.
    assert (Hq : question st = q) by (subst st; apply question_merge).
    destruct (branch_node_cases svc (S (S fuel))
                (String.eqb (lower (strip raw)) "weather") st)
      as [(e1 & Hw & Hl & E) | (t & p & E & Ht)]; rewrite E; clear E.
    + unfold outcome, trace, fst, snd. intros [= ->]. rewrite Hq in *. split.
      * exists (LocationPrompt q). unfold unguarded_prompt. simpl. auto.
      * intros a b c [H|[H|[]]]; discriminate.
    + pose proof (run_after_branch svc fuel st t p Ht) as R.
      pose proof (generation_prompt_unguarded (merge st p)) as Hu.
      rewrite question_merge, Hq in Hu.
      destruct (llm svc (generation_prompt (merge st p))) as [g|e1] eqn:Hg.
      * destruct R as (ev & R). rewrite R. discriminate.
      * destruct R as (R & Hno). rewrite R.
        unfold outcome, trace, fst, snd.
        intros [= ->]. split.
        -- exists (generation_prompt (merge st p)).
           repeat split; [assumption..|].
           right. apply in_or_app. right. now left.
        -- intros a b c [H|H]; [discriminate|]. now apply (Hno a b c).
  - rewrite (run_Router_err svc _ _ e0 Hr). rewrite Hq0.
    unfold outcome, trace, fst, snd.
    intros [= ->]. split.
    + exists (RouterPrompt q). unfold unguarded_prompt. simpl. auto.
    + intros a b c [H|[]]; discriminate.
Qed.

(** C5, as the code has it. When the fetch of the weather fails (the
    request, its status check or the decoding of its body raises, or the
    body lacks a field), the weather stage does not raise: it stores empty
    weather data and a context made of the prefix of fetch errors followed
    by the message, a prefix no context of a successful fetch starts with.
    Provided the language-model call of the generation then returns an
    answer, the pipeline reaches its end with that answer (so with a
    non-empty answer when the model's text is non-empty), the empty weather
    data and the error context. *)
Theorem weather_fetch_failure_degrades (svc : Services)
  (q raw_route raw_city msg answer : string) :
  llm svc (RouterPrompt q) = Ok raw_route ->
  lower (strip raw_route) = "weather" ->
  llm svc (LocationPrompt q) = Ok raw_city ->
  fetch_fails format_value svc (strip raw_city) msg ->
  let error_context := "Error fetching weather data: " ++ msg in
  let routed := merge (initial_state q) [SetRoute "weather"] in
  outcome (weather_node' svc routed)
  = Ok [SetWeatherData (JObj []); SetContext error_context] /\
  startswith "Error fetching weather data: " error_context = true /\
  (forall j ctx,
      weather_context format_value j = Ok ctx ->
      startswith "Error fetching weather data: " ctx = false) /\
  (llm svc (WeatherAnswerPrompt error_context q) = Ok answer ->
   exists final,
     outcome (process' svc q) = Ok final /\
     weather_data final = JObj [] /\
     context final = error_context /\
     generation final = answer /\
     (answer <> EmptyString -> generation final <> EmptyString)).
Proof.
  intros Hr Hw Hl Hf error_context routed.
  assert (Hnode : weather_node' svc routed
                  = ([CallLLM (LocationPrompt q); HttpGet (strip raw_city)],
                     Ok [SetWeatherData (JObj []); SetContext error_context]))
    by exact (weather_node_failed svc routed raw_city msg Hl Hf).
  repeat match goal with |- _ /\ _ => split end.
  - now rewrite Hnode.
  - reflexivity.
  - intros j ctx Hctx. unfold weather_context, rbind in Hctx.
    repeat match type of Hctx with
      | match ?r with Ok _ => _ | Err _ => _ end = _ =>
          destruct r; [|discriminate]
      end.
    injection Hctx as <-. reflexivity.
  - intros Hg.
    destruct (process_unfold svc q) as (fuel & ->).
    rewrite (run_Router_ok svc _ (initial_state q) raw_route Hr), Hw.
    change (String.eqb "weather" "weather") with true. cbv iota.
    fold routed. rewrite outcome_pair, run_Weather.
    rewrite (outcome_bind_ok _ _
               [SetWeatherData (JObj []); SetContext error_context])
      by now rewrite Hnode.
    set (degraded := merge routed
                       [SetWeatherData (JObj []); SetContext error_context]).
    assert (Hgen : llm svc (generation_prompt degraded) = Ok answer)
      by exact Hg.
    destruct (run_Generation_ok svc fuel degraded answer Hgen) as (ev & E).
    rewrite E, outcome_pair.
    eexists. split; [reflexivity|]. now repeat split.
Qed.

(** C8, as the code has it. A failure of the language model in the router
    or in the generation is not recovered: it leaves the pipeline as the
    failure of the query; so does a failure of the call that extracts the
    city in the weather stage. Failures of the weather fetch, of the
    retrieval and of the evaluation are turned into state fields. Hence
    every failure of a query is the failure of a language-model call made
    by the router, by the city extraction or by the generation. *)
Theorem hard_errors_are_unguarded_llm_failures (svc : Services) (q : string) :
  (forall e, llm svc (RouterPrompt q) = Err e ->
             outcome (process' svc q) = Err e) /\
  (forall st e fuel,
      llm svc (generation_prompt st) = Err e ->
      outcome (run' svc (S fuel) Generation st) = Err e) /\
  (forall st e fuel,
      llm svc (LocationPrompt (question st)) = Err e ->
      outcome (run' svc (S fuel) Weather st) = Err e) /\
  (forall st raw,
      llm svc (LocationPrompt (question st)) = Ok raw ->
      exists p, outcome (weather_node' svc st) = Ok p) /\
  (forall st, exists p, outcome (rag_retrieval_node svc st) = Ok p) /\
  (forall st, exists p, outcome (evaluation_node' svc st) = Ok p) /\
  (forall e,
      outcome (process' svc q) = Err e ->
      exists p, unguarded_prompt q p /\ llm svc p = Err e /\
                In (CallLLM p) (trace (process' svc q))).
Proof.
  repeat match goal with |- _ /\ _ => split end.
  - intros e Hr. destruct (process_unfold svc q) as (fuel & ->).
    now rewrite (run_Router_err svc _ (initial_state q) e Hr).
  - intros st e fuel Hg. now rewrite (run_Generation_err svc fuel st e Hg).
  - intros st e fuel Hl.
    now rewrite run_Weather, (weather_node_no_city svc st e Hl).
  - intros st raw Hl. destruct (weather_node_cases svc st raw Hl) as (p & E).
    exists p. now rewrite E.
  - apply rag_node_never_raises.
  - intros st. destruct (evaluation_node_cases svc st) as (ev & E & _).
    eexists. now rewrite E.
  - intros e He. now apply process_failure.
Qed.

(** C10. The evaluation stage never raises: a failure of the call to the
    language model and a failure of the decoding both end in a map whose
    only field is the error message, from the evaluation node the graph
    reaches its end, and a query whose evaluation stage was entered at all
    ends with a final state. *)
Theorem evaluation_never_raises (svc : Services) :
  (forall st,
      exists ev,
        outcome (evaluation_node' svc st) = Ok [SetEvaluation ev] /\
        (forall e,
            llm svc (EvalPrompt (question st) (context st) (generation st))
            = Err e ->
            ev = JObj [("error", JStr e)]) /\
        (forall raw e,
            llm svc (EvalPrompt (question st) (context st) (generation st))
            = Ok raw ->
            json_loads (clean_eval_result raw) = Err e ->
            ev = JObj [("error", JStr e)]) /\
        (forall fuel,
            outcome (run' svc (S fuel) Evaluation st)
            = Ok (merge st [SetEvaluation ev]))) /\
  (forall q a b c,
      In (CallLLM (EvalPrompt a b c)) (trace (process' svc q)) ->
      exists final, outcome (process' svc q) = Ok final).
Proof.
  split.
  - intros st.
    destruct (evaluation_node_cases svc st) as (ev & E & Hllm & Hjson & _).
    exists ev. repeat match goal with |- _ /\ _ => split end.
    + now rewrite E.
    + exact Hllm.
    + exact Hjson.
    + intros fuel. now rewrite run_Evaluation, E.
  - intros q a b c Hin.
    destruct (outcome (process' svc q)) as [final|e] eqn:Ho.
    + now exists final.
    + exfalso. now apply (proj2 (process_failure svc q e Ho) a b c).
Qed.

(** *** Termination *)

Lemma bind_ext {A B} (m : M A) (f g : A -> M B) :
  (forall a, f a = g a) -> bind m f = bind m g.
Proof. intros H. destruct m as [t [a|e]]; simpl; now rewrite ?H. Qed.

Lemma run_Evaluation_fuel svc fuel fuel' st :
  run' svc (S fuel) Evaluation st = run' svc (S fuel') Evaluation st.
Proof. now rewrite !run_Evaluation. Qed.

Lemma run_Generation_fuel svc fuel fuel' st :
  run' svc (S (S fuel)) Generation st = run' svc (S (S fuel')) Generation st.
Proof.
  rewrite !run_Generation. apply bind_ext. intros p.
  apply run_Evaluation_fuel.
Qed.

Lemma run_branch_fuel svc fuel fuel' (weather : bool) st :
  run' svc (S (S (S fuel))) (if weather then Weather else RagRetrieval) st
  = run' svc (S (S (S fuel'))) (if weather then Weather else RagRetrieval) st.
Proof.
  destruct weather.
  - rewrite !run_Weather. apply bind_ext. intros p.
    apply run_Generation_fuel.
  - rewrite !run_RagRetrieval. apply bind_ext. intros p.
    apply run_Generation_fuel.
Qed.

(** Five steps are enough: the run of the graph from its start is the
    same for every bound of at least five steps, so the recursion limit of
    the graph is never what ends a query. *)
Theorem five_steps_suffice (svc : Services) (st : GraphState) (fuel : nat) :
  run' svc (S (S (S (S (S fuel))))) START st
  = run' svc (S (S (S (S (S O))))) START st.
Proof.
  rewrite !run_START, !run_Router. apply bind_ext. intros p.
  apply run_branch_fuel.
Qed.

(** *** Every run is one of the four cases *)

Local Abbreviation run_node' := (run_node json_loads format_value).
Local Abbreviation pipeline_run' := (pipeline_run json_loads format_value).

Lemma run_branch svc fuel raw st :
  run' svc (S fuel) (branch_of raw) st
  = (p <- run_node' svc (branch_of raw) st ;;
     run' svc fuel Generation (merge st p)).
Proof. unfold branch_of. now destruct (String.eqb _ _). Qed.

Lemma trace_pair {A} (t : list event) (r : res A) : trace (t, r) = t.
Proof. reflexivity. Qed.

Lemma run_after_node svc fuel st t p :
  (forall e,
      llm svc (generation_prompt (merge st p)) = Err e ->
      bind (t, Ok p) (fun p => run' svc (S (S fuel)) Generation (merge st p))
      = ((t ++ [CallLLM (generation_prompt (merge st p))])%list, Err e)) /\
  (forall g ev,
      llm svc (generation_prompt (merge st p)) = Ok g ->
      outcome (evaluation_node' svc (merge (merge st p) [SetGeneration g]))
      = Ok [SetEvaluation ev] ->
      bind (t, Ok p) (fun p => run' svc (S (S fuel)) Generation (merge st p))
      = ((t ++ [CallLLM (generation_prompt (merge st p));
                CallLLM (evaluation_prompt
                           (merge (merge st p) [SetGeneration g]))])%list,
         Ok (merge (merge (merge st p) [SetGeneration g])
               [SetEvaluation ev]))).
Proof.
  split.
  - intros e Hg. unfold bind at 1.
    now rewrite (run_Generation_err svc (S fuel) (merge st p) e Hg).
  - intros g ev Hg Hev. unfold bind at 1.
    destruct (run_Generation_ok svc fuel (merge st p) g Hg) as (ev' & E).
    destruct (run_Evaluation_done svc fuel
                (merge (merge st p) [SetGeneration g])) as (ev'' & E1 & _).
    rewrite E1 in Hev. injection Hev as ->.
    rewrite E. f_equal. f_equal.
    rewrite run_Generation, (generation_node_ok _ _ _ Hg) in E.
    unfold bind at 1 in E. rewrite run_Evaluation, E1 in E.
    cbn [bind ret app] in E. now injection E as <-.
Qed.

Lemma process_is_pipeline_run svc q :
  pipeline_run' svc q (trace (process' svc q)) (outcome (process' svc q)).
Proof.
  destruct (process_unfold svc q) as (fuel & ->).
  assert (Hq0 : question (initial_state q) = q) by reflexivity.
  destruct (llm svc (RouterPrompt q)) as [raw|e0] eqn:Hr.
  - rewrite <- Hq0 in Hr.
    rewrite (run_Router_ok svc _ _ raw Hr). rewrite Hq0 in *.
    fold (branch_of raw). fold (routed_state q raw).
    rewrite trace_pair, outcome_pair, run_branch.
    destruct (run_node' svc (branch_of raw) (routed_state q raw))
      as [t [p|e]] eqn:Hb.
    + destruct (run_after_node svc fuel (routed_state q raw) t p)
        as (Herr & Hok).
      destruct (llm svc (generation_prompt (merge (routed_state q raw) p)))
        as [g|e] eqn:Hg.
      * destruct (evaluation_node_cases svc
                    (merge (merge (routed_state q raw) p) [SetGeneration g]))
          as (ev & E & _).
        assert (Hev : outcome
                        (evaluation_node' svc
                           (merge (merge (routed_state q raw) p)
                              [SetGeneration g]))
                      = Ok [SetEvaluation ev]) by now rewrite E.
        rewrite (Hok g ev eq_refl Hev), trace_pair, outcome_pair.
        now apply RunDone.
      * rewrite (Herr e eq_refl), trace_pair, outcome_pair.
        now apply RunGenerationFailed.
    + cbn [bind]. rewrite trace_pair, outcome_pair.
      now apply RunBranchFailed with (raw := raw).
  - rewrite <- Hq0 in Hr.
    rewrite (run_Router_err svc _ _ e0 Hr). rewrite Hq0 in *.
    now apply RunRouterFailed.
Qed.

(** What a branch stage calls and what it sets. *)
Lemma branch_node_shape svc raw st t r :
  run_node' svc (branch_of raw) st = (t, r) ->
  (branch_of raw = Weather /\
   Forall (fun ev => ev = CallLLM (LocationPrompt (question st)) \/
                     exists city, ev = HttpGet city) t /\
   forall p, r = Ok p -> exists w c, p = [SetWeatherData w; SetContext c]) \/
  (branch_of raw = RagRetrieval /\
   Forall (fun ev => ev = SimilaritySearch (question st) RETRIEVAL_TOP_K \/
                     exists documents,
                       ev = Rerank (question st) documents RERANK_TOP_N) t /\
   forall p, r = Ok p ->
             exists d c sc,
               p = [SetRetrievedDocs d; SetContext c; SetRerankScores sc] /\
               length d = length sc).
Proof.
  unfold branch_of. destruct (String.eqb _ _); cbn [run_node]; intros H.
  - left. split; [reflexivity|].
    destruct (llm svc (LocationPrompt (question st))) as [city|e] eqn:Hl.
    + destruct (http_get_json svc (strip city)) as [j|e] eqn:Hg;
        [destruct (weather_context format_value j) as [ctx|e] eqn:Hc|].
      * rewrite (weather_node_fetched _ _ _ _ _ Hl Hg Hc) in H.
        injection H as <- <-. split; [repeat first [apply Forall_nil | apply Forall_cons]; eauto|].
        intros p [= <-]. eauto.
      * rewrite (weather_node_failed _ _ _ e Hl) in H
          by (right; now exists j).
        injection H as <- <-. split; [repeat first [apply Forall_nil | apply Forall_cons]; eauto|].
        intros p [= <-]. eauto.
      * rewrite (weather_node_failed _ _ _ e Hl) in H by now left.
        injection H as <- <-. split; [repeat first [apply Forall_nil | apply Forall_cons]; eauto|].
        intros p [= <-]. eauto.
    + rewrite (weather_node_no_city _ _ _ Hl) in H.
      injection H as <- <-. split; [repeat first [apply Forall_nil | apply Forall_cons]; eauto|].
      discriminate.
  - right. split; [reflexivity|].
    destruct (similarity_search svc (question st) RETRIEVAL_TOP_K)
      as [documents|e] eqn:Hs;
      [destruct (cohere_rerank svc (question st) documents RERANK_TOP_N)
         as [results|e] eqn:Hr|].
    + rewrite (rag_node_reranked _ _ _ _ Hs Hr) in H.
      injection H as <- <-. split; [repeat first [apply Forall_nil | apply Forall_cons]; eauto|].
      intros p [= <-]. do 3 eexists. split; [reflexivity|].
      now rewrite !length_map.
    + rewrite (rag_node_rerank_failed _ _ _ _ Hs Hr) in H.
      injection H as <- <-. split; [repeat first [apply Forall_nil | apply Forall_cons]; eauto|].
      intros p [= <-]. do 3 eexists. now split.
    + rewrite (rag_node_search_failed _ _ _ Hs) in H.
      injection H as <- <-. split; [repeat first [apply Forall_nil | apply Forall_cons]; eauto|].
      intros p [= <-]. do 3 eexists. now split.
Qed.

Lemma branch_of_weather raw :
  branch_of raw = Weather -> lower (strip raw) = "weather".
Proof.
  unfold branch_of. destruct (String.eqb _ _) eqn:E; [|discriminate].
  intros _. now apply String.eqb_eq.
Qed.

Lemma branch_of_document raw :
  branch_of raw = RagRetrieval -> lower (strip raw) <> "weather".
Proof.
  unfold branch_of. destruct (String.eqb _ _) eqn:E; [discriminate|].
  intros _. now apply String.eqb_neq.
Qed.

(** The final state of a query keeps the question it was asked, its
    passages and scores have the same length, a run routed to the weather
    leaves the passages and the scores empty, and a run routed to the
    documents leaves the weather data empty. *)
Theorem final_state_invariants (svc : Services) (q : string)
  (final : GraphState) :
  outcome (process' svc q) = Ok final ->
  question final = q /\
  length (retrieved_docs final) = length (rerank_scores final) /\
  (route final = "weather" ->
   retrieved_docs final = [] /\ rerank_scores final = []) /\
  (route final <> "weather" -> weather_data final = JObj []).
Proof.
  intros Ho. pose proof (process_is_pipeline_run svc q) as R.
  rewrite Ho in R. remember (Ok final) as r eqn:Hr.
  destruct R as [e He | raw t e Hraw Hb | raw t p e Hraw Hb Hg
                | raw t p g ev Hraw Hb Hg Hev]; try discriminate.
  injection Hr as <-.
  destruct (branch_node_shape svc raw _ _ _ Hb)
    as [(Hw & _ & Hp) | (Hd & _ & Hp)].
  - destruct (Hp p eq_refl) as (w & c & ->).
    apply branch_of_weather in Hw. cbn.
    repeat split; try reflexivity. intros Hne. now elim Hne.
  - destruct (Hp p eq_refl) as (d & c & sc & -> & Hlen).
    apply branch_of_document in Hd. cbn.
    repeat split; try assumption; try reflexivity; now elim Hd.
Qed.

Lemma generation_prompt_weather q raw w c :
  branch_of raw = Weather ->
  generation_prompt
    (merge (routed_state q raw) [SetWeatherData w; SetContext c])
  = WeatherAnswerPrompt c q.
Proof.
  intros H. apply branch_of_weather in H.
  unfold generation_prompt. cbn. now rewrite H.
Qed.

Lemma generation_prompt_document q raw d c sc :
  branch_of raw = RagRetrieval ->
  generation_prompt
    (merge (routed_state q raw)
       [SetRetrievedDocs d; SetContext c; SetRerankScores sc])
  = PdfAnswerPrompt c q.
Proof.
  intros H. apply branch_of_document in H.
  unfold generation_prompt. cbn.
  now apply String.eqb_neq in H as ->.
Qed.

Lemma weather_family q t :
  Forall (fun ev => ev = CallLLM (LocationPrompt q) \/
                    exists city, ev = HttpGet city) t ->
  Forall (weather_event q) t.
Proof.
  apply Forall_impl. unfold weather_event. intros ev [H|H]; auto.
Qed.

Lemma document_family q t :
  Forall (fun ev => ev = SimilaritySearch q RETRIEVAL_TOP_K \/
                    exists documents, ev = Rerank q documents RERANK_TOP_N) t ->
  Forall (document_event q) t.
Proof.
  apply Forall_impl. unfold document_event. intros ev [H|H]; auto.
Qed.

(** The two branches never mix. Every run starts with the call of the
    router, and everything it calls afterwards belongs either to the
    weather path (city extraction, weather API, weather answer,
    evaluation) or to the document path (index search, reranker, document
    answer, evaluation): a run that fetches the weather never searches the
    index, and the answer template always matches the branch that ran. *)
Theorem branches_never_mix (svc : Services) (q : string) :
  exists rest,
    trace (process' svc q) = CallLLM (RouterPrompt q) :: rest /\
    (Forall (weather_event q) rest \/ Forall (document_event q) rest).
Proof.
  pose proof (process_is_pipeline_run svc q) as R.
  destruct R as [e He | raw t e Hraw Hb | raw t p e Hraw Hb Hg
                | raw t p g ev Hraw Hb Hg Hev];
    eexists; (split; [reflexivity|]).
  - left. constructor.
  - destruct (branch_node_shape svc raw _ _ _ Hb)
      as [(Hw & Ht & _) | (Hd & Ht & _)].
    + left. now apply weather_family.
    + right. now apply document_family.
  - destruct (branch_node_shape svc raw _ _ _ Hb)
      as [(Hw & Ht & Hp) | (Hd & Ht & Hp)].
    + destruct (Hp p eq_refl) as (w & c & ->).
      rewrite (generation_prompt_weather q raw w c Hw).
      left. apply Forall_app. split; [now apply weather_family|].
      repeat first [apply Forall_nil | apply Forall_cons]; unfold weather_event. eauto 6.
    + destruct (Hp p eq_refl) as (d & c & sc & -> & _).
      rewrite (generation_prompt_document q raw d c sc Hd).
      right. apply Forall_app. split; [now apply document_family|].
      repeat first [apply Forall_nil | apply Forall_cons]; unfold document_event. eauto 6.
  - destruct (branch_node_shape svc raw _ _ _ Hb)
      as [(Hw & Ht & Hp) | (Hd & Ht & Hp)].
    + destruct (Hp p eq_refl) as (w & c & ->).
      rewrite (generation_prompt_weather q raw w c Hw).
      left. apply Forall_app. split; [now apply weather_family|].
      repeat first [apply Forall_nil | apply Forall_cons]; unfold weather_event, evaluation_prompt; cbn;
        eauto 6.
    + destruct (Hp p eq_refl) as (d & c & sc & -> & _).
      rewrite (generation_prompt_document q raw d c sc Hd).
      right. apply Forall_app. split; [now apply document_family|].
      repeat first [apply Forall_nil | apply Forall_cons]; unfold document_event, evaluation_prompt; cbn;
        eauto 6.
Qed.

(** The answer that is returned is the one that was judged. In a run
    that ends, the last two calls are the generation and the evaluation;
    the generation prompt is the one built from the route, the context and
    the question of the final state, the answer of the final state is the
    reply of the model to it, and the evaluation prompt holds the
    question, the context and the answer of the final state. *)
Theorem evaluation_judges_final_answer (svc : Services) (q : string)
  (final : GraphState) :
  outcome (process' svc q) = Ok final ->
  llm svc (generation_prompt final) = Ok (generation final) /\
  exists before,
    trace (process' svc q)
    = (before ++ [CallLLM (generation_prompt final);
                  CallLLM (EvalPrompt q (context final)
                             (generation final))])%list.
Proof.
  intros Ho. pose proof (process_is_pipeline_run svc q) as R.
  rewrite Ho in R. remember (Ok final) as r eqn:Hr.
  destruct R as [e He | raw t e Hraw Hb | raw t p e Hraw Hb Hg
                | raw t p g ev Hraw Hb Hg Hev]; try discriminate.
  injection Hr as <-.
  set (st2 := merge (routed_state q raw) p) in *.
  assert (Hq : question st2 = q)
    by (unfold st2, routed_state; now rewrite !question_merge).
  split.
  - exact Hg.
  - exists (CallLLM (RouterPrompt q) :: t).
    unfold evaluation_prompt, generation_prompt.
    cbn [merge fold_left apply_update question route context generation].
    now rewrite Hq.
Qed.

(** The reranker is only ever given the candidates of the index search,
    with the question of the state and the configured number of results;
    so when the search itself fails the reranker is not called, and the
    stage ends with empty passages and scores and the error as context. *)
Theorem rerank_receives_the_candidates (svc : Services) (st : GraphState) :
  (forall q' documents n,
      In (Rerank q' documents n) (trace (rag_retrieval_node svc st)) ->
      q' = question st /\ n = RERANK_TOP_N /\
      similarity_search svc (question st) RETRIEVAL_TOP_K = Ok documents) /\
  (forall e,
      similarity_search svc (question st) RETRIEVAL_TOP_K = Err e ->
      rag_retrieval_node svc st
      = ([SimilaritySearch (question st) RETRIEVAL_TOP_K],
         Ok [SetRetrievedDocs [];
             SetContext ("Error retrieving documents: " ++ e);
             SetRerankScores []])).
Proof.
  split; [|apply rag_node_search_failed].
  intros q' documents n.
  destruct (similarity_search svc (question st) RETRIEVAL_TOP_K)
    as [docs|e] eqn:Hs.
  - destruct (cohere_rerank svc (question st) docs RERANK_TOP_N)
      as [results|e] eqn:Hr.
    + rewrite (rag_node_reranked _ _ _ _ Hs Hr).
      intros [H|[H|[]]]; [discriminate|]. now injection H as <- <- <-.
    + rewrite (rag_node_rerank_failed _ _ _ _ Hs Hr).
      intros [H|[H|[]]]; [discriminate|]. now injection H as <- <- <-.
  - rewrite (rag_node_search_failed _ _ _ Hs).
    intros [H|[]]. discriminate.
Qed.

Lemma occurs_in_join (sep x : string) (parts : list string) :
  In x parts -> occurs_in x (join sep parts).
Proof.
  induction parts as [|a parts IH]; [intros []|].
  intros [->|Hin].
  - destruct parts as [|b parts]; simpl.
    + exists EmptyString, EmptyString. simpl. now rewrite sapp_nil_r.
    + exists EmptyString, (sep ++ join sep (b :: parts)). reflexivity.
  - destruct parts as [|b parts]; [destruct Hin|].
    change (join sep (a :: b :: parts))
      with (a ++ sep ++ join sep (b :: parts)).
    apply occurs_in_app_r, occurs_in_app_r. now apply IH.
Qed.

(** Every passage the reranker returns is in the context handed to the
    generation, whole. *)
Theorem context_holds_every_passage (svc : Services) (st : GraphState)
  (documents : list string) (results : list (string * Q)) :
  similarity_search svc (question st) RETRIEVAL_TOP_K = Ok documents ->
  cohere_rerank svc (question st) documents RERANK_TOP_N = Ok results ->
  exists p,
    outcome (rag_retrieval_node svc st) = Ok p /\
    forall text score,
      In (text, score) results -> occurs_in text (context (merge st p)).
Proof.
  intros Hs Hr. rewrite (rag_node_reranked _ _ _ _ Hs Hr).
  eexists. split; [reflexivity|].
  intros text score Hin. cbn.
  apply occurs_in_join. now apply (in_map fst) in Hin.
Qed.

(** When the trimmed rubric output starts with a fence marker, the text
    that is handed to the decoder holds no fence marker any more, wherever
    the markers stood in the output. *)
Theorem fenced_output_loses_every_marker (raw : string) :
  startswith "```" (strip raw) = true ->
  contains "```" (clean_eval_result raw) = false.
Proof.
  intros H. unfold clean_eval_result. rewrite H.
  destruct (startswith "```json" (strip raw)); apply replace_fence_clean.
Qed.

(** What the stages store or send is normalized: the route the router
    stores has no white space around it and is in lower case, and the city
    the weather stage sends to the weather API has no white space around
    it. *)
Theorem stored_texts_are_normalised (svc : Services) (st : GraphState) :
  (forall label,
      outcome (router_node svc st) = Ok [SetRoute label] ->
      strip label = label /\ lower label = label) /\
  (forall city,
      In (HttpGet city) (trace (weather_node' svc st)) ->
      strip city = city).
Proof.
  split.
  - intros label.
    destruct (llm svc (RouterPrompt (question st))) as [raw|e] eqn:Hr.
    + rewrite (router_node_ok _ _ _ Hr). intros [= <-]. split.
      * now rewrite <- lower_strip, strip_idem.
      * apply lower_idem.
    + rewrite (router_node_err _ _ _ Hr). discriminate.
  - intros city.
    destruct (llm svc (LocationPrompt (question st))) as [raw|e] eqn:Hl.
    + destruct (weather_node_cases svc st raw Hl) as (p & ->).
      intros [H|[H|[]]]; [discriminate|].
      injection H as <-. apply strip_idem.
    + rewrite (weather_node_no_city _ _ _ Hl). intros [H|[]]. discriminate.
Qed.

(** A response of the weather API that lacks what the template reads is
    treated as a fetch failure, and the body that was fetched is not
    kept: without the key [name] the context reports that key, and with
    an empty list of weather conditions it reports the index error; in
    both cases the weather data is the empty map. *)
Theorem weather_malformed_response (svc : Services) (st : GraphState)
  (raw : string) (j : json) :
  llm svc (LocationPrompt (question st)) = Ok raw ->
  http_get_json svc (strip raw) = Ok j ->
  (forall fields,
      j = JObj fields -> dict_get "name" fields = None ->
      outcome (weather_node' svc st)
      = Ok [SetWeatherData (JObj []);
            SetContext "Error fetching weather data: 'name'"]) /\
  (forall name sys country main temp feels_like humidity,
      getitem j "name" = Ok name ->
      getitem j "sys" = Ok sys ->
      getitem sys "country" = Ok country ->
      getitem j "main" = Ok main ->
      getitem main "temp" = Ok temp ->
      getitem main "feels_like" = Ok feels_like ->
      getitem main "humidity" = Ok humidity ->
      getitem j "weather" = Ok (JArr []) ->
      outcome (weather_node' svc st)
      = Ok [SetWeatherData (JObj []);
            SetContext "Error fetching weather data: list index out of range"]).
Proof.
  intros Hl Hg. split.
  - intros fields -> Hname.
    rewrite (weather_node_failed svc st raw "'name'" Hl); [reflexivity|].
    right. eexists. split; [exact Hg|].
    unfold weather_context, rbind, getitem. now rewrite Hname.
  - intros name sys country main temp feels_like humidity
      H1 H2 H3 H4 H5 H6 H7 H8.
    rewrite (weather_node_failed svc st raw "list index out of range" Hl);
      [reflexivity|].
    right. eexists. split; [exact Hg|].
    unfold weather_context, rbind.
    now rewrite H1, H2, H3, H4, H5, H6, H7, H8.
Qed.

(** *** The endpoints *)

Local Abbreviation batch' :=
  (batch_query json_loads format_value validation_message).
Local Abbreviation query' :=
  (query json_loads format_value validation_message).
Local Abbreviation entry' := (batch_response validation_message).

Lemma weather_node_data_is_object svc st t p :
  weather_node' svc st = (t, Ok p) ->
  exists fields c, p = [SetWeatherData (JObj fields); SetContext c].
Proof.
  intros H.
  destruct (llm svc (LocationPrompt (question st))) as [city|e] eqn:Hl.
  - destruct (http_get_json svc (strip city)) as [j|e] eqn:Hg;
      [destruct (weather_context format_value j) as [ctx|e] eqn:Hc|].
    + rewrite (weather_node_fetched _ _ _ _ _ Hl Hg Hc) in H.
      injection H as <- <-.
      destruct j; try discriminate Hc. eauto.
    + rewrite (weather_node_failed _ _ _ e Hl) in H by (right; now exists j).
      injection H as <- <-. eauto.
    + rewrite (weather_node_failed _ _ _ e Hl) in H by now left.
      injection H as <- <-. eauto.
  - rewrite (weather_node_no_city _ _ _ Hl) in H. discriminate.
Qed.

Lemma final_weather_data_is_object svc q final :
  outcome (process' svc q) = Ok final ->
  exists fields, weather_data final = JObj fields.
Proof.
  intros Ho. pose proof (process_is_pipeline_run svc q) as R.
  rewrite Ho in R. remember (Ok final) as r eqn:Hr.
  destruct R as [e He | raw t e Hraw Hb | raw t p e Hraw Hb Hg
                | raw t p g ev Hraw Hb Hg Hev]; try discriminate.
  injection Hr as <-.
  destruct (branch_node_shape svc raw _ _ _ Hb)
    as [(Hw & _ & _) | (Hd & _ & Hp)].
  - rewrite Hw in Hb. cbn [run_node] in Hb.
    destruct (weather_node_data_is_object _ _ _ _ Hb) as (fields & c & ->).
    now exists fields.
  - destruct (Hp p eq_refl) as (d & c & sc & -> & _). now exists [].
Qed.

(** The entry of the batch for one question, case by case. *)
Lemma batch_entry_cases svc q :
  (exists e,
      outcome (process' svc q) = Err e /\
      entry' q (outcome (process' svc q))
      = Ok (mkResponse q ("Error: " ++ e) "error" EmptyString
              None None None None)) \/
  (exists final,
      outcome (process' svc q) = Ok final /\
      dict_or_null (evaluation final) = true /\
      entry' q (outcome (process' svc q))
      = Ok (mkResponse q (generation final) (route final) (context final)
              (Some (weather_data final)) (Some (retrieved_docs final))
              (Some (rerank_scores final))
              (optional_dict (Some (evaluation final))))) \/
  (exists final,
      outcome (process' svc q) = Ok final /\
      dict_or_null (evaluation final) = false /\
      entry' q (outcome (process' svc q))
      = Err (validation_message [("evaluation", evaluation final)])).
Proof.
  destruct (outcome (process' svc q)) as [final|e] eqn:Ho.
  - destruct (final_weather_data_is_object svc q final Ho) as (fields & Hwd).
    unfold batch_response, new_QueryResponse. rewrite Hwd.
    destruct (dict_or_null (evaluation final)) eqn:Hd;
      [right; left | right; right];
      exists final; (split; [reflexivity|]); (split; [exact Hd|]);
      rewrite ?Hwd; destruct (evaluation final); try discriminate Hd;
      reflexivity.
  - left. now exists e.
Qed.

Lemma batch_query_cons svc q qs :
  batch' svc (q :: qs)
  = (response <~ entry' q (outcome (process' svc q)) ;;
     responses <~ batch' svc qs ;;
     Ok (response :: responses)).
Proof. reflexivity. Qed.


(** The two query endpoints on the same question. When [/query] answers,
    the batch of that one question answers too, with the same question,
    answer, route, context and evaluation; [/query] shows the weather data
    only for the route [weather] and the passages and scores only for the
    route [pdf], never both, where the batch entry always carries all
    three. When [/query] raises, either the pipeline failed, and the batch
    entry is the error marker with the same failure, or the pipeline
    ended with an evaluation that is neither a map nor null, and the batch
    request raises with the error that [/query] reports in its detail. *)
Theorem query_and_batch_agree (svc : Services) (q : string) :
  (forall r,
      query' svc q = Ok r ->
      exists r' final,
        batch' svc [q] = Ok [r'] /\
        outcome (process' svc q) = Ok final /\
        r_question r = r_question r' /\ r_answer r = r_answer r' /\
        r_route r = r_route r' /\ r_context r = r_context r' /\
        r_evaluation r = r_evaluation r' /\
        r_weather_data r' = Some (weather_data final) /\
        r_retrieved_docs r' = Some (retrieved_docs final) /\
        r_rerank_scores r' = Some (rerank_scores final) /\
        (r_weather_data r = None \/ r_retrieved_docs r = None) /\
        (r_weather_data r <> None -> r_route r = "weather") /\
        (r_retrieved_docs r <> None -> r_route r = "pdf") /\
        (r_retrieved_docs r = None <-> r_rerank_scores r = None)) /\
  (forall detail,
      query' svc q = Err detail ->
      (exists e,
          outcome (process' svc q) = Err e /\
          detail = "Error processing query: " ++ e /\
          batch' svc [q]
          = Ok [mkResponse q ("Error: " ++ e) "error" EmptyString
                  None None None None]) \/
      (exists final,
          outcome (process' svc q) = Ok final /\
          dict_or_null (evaluation final) = false /\
          detail
          = "Error processing query: "
            ++ validation_message [("evaluation", evaluation final)] /\
          batch' svc [q]
          = Err (validation_message [("evaluation", evaluation final)]))).
Proof.
  rewrite batch_query_cons. change (batch' svc []) with (Ok (@nil QueryResponse)).
  destruct (batch_entry_cases svc q)
    as [(e & Ho & E) | [(final & Ho & Hev & E) | (final & Ho & Hev & E)]];
    rewrite E; cbn [rbind]; unfold query; rewrite Ho.
  - split; [discriminate|]. intros detail [= <-]. left. now exists e.
  - destruct (final_weather_data_is_object svc q final Ho) as (fields & Hwd).
    unfold new_QueryResponse. rewrite Hwd.
    assert (Hnil : rejected_dict "evaluation" (Some (evaluation final)) = [])
      by now destruct (evaluation final).
    rewrite Hnil, app_nil_r.
    split.
    + destruct (String.eqb (route final) "weather") eqn:Hw;
        destruct (String.eqb (route final) "pdf") eqn:Hp;
        [exfalso; apply String.eqb_eq in Hw, Hp; congruence | ..];
        cbn [rejected_dict];
        intros r [= <-]; eexists _, final;
        (split; [reflexivity|]); (split; [reflexivity|]); cbn;
        repeat match goal with |- _ /\ _ => split end;
        try reflexivity; try (now left); try (now right);
        try (intros _; now apply String.eqb_eq);
        try (intros H; now elim H);
        try (split; intros; congruence);
        try (now rewrite Hwd).
    + destruct (String.eqb (route final) "weather");
        cbn [rejected_dict]; discriminate.
  - destruct (final_weather_data_is_object svc q final Ho) as (fields & Hwd).
    unfold new_QueryResponse. rewrite Hwd.
    assert (Hbad : rejected_dict "evaluation" (Some (evaluation final))
                   = [("evaluation", evaluation final)])
      by (destruct (evaluation final); try reflexivity; discriminate).
    rewrite Hbad.
    split.
    + destruct (String.eqb (route final) "weather");
        cbn [rejected_dict app]; discriminate.
    + intros detail Hd. right. exists final.
      repeat split; try assumption.
      destruct (String.eqb (route final) "weather");
        cbn [rejected_dict app] in Hd; now injection Hd as <-.
Qed.

End PipelineFacts.

(** ** The vector store *)

Section VectorStoreFacts.

Variable store : Type.
Variable b : Backend store.

Lemma fold_append_from (pages : list string) (text : string) :
  fold_left (fun text page => text ++ page) pages text
  = text ++ String.concat EmptyString pages.
Proof.
  revert text. induction pages as [|p pages IH]; intros text; simpl.
  - now rewrite PyStrFacts.sapp_nil_r.
  - rewrite IH, PyStrFacts.sapp_assoc. f_equal.
    destruct pages; simpl; [now rewrite PyStrFacts.sapp_nil_r | reflexivity].
Qed.

Lemma concat_empty_app (l1 l2 : list string) :
  String.concat EmptyString (l1 ++ l2)
  = String.concat EmptyString l1 ++ String.concat EmptyString l2.
Proof.
  induction l1 as [|a l1 IH]; [reflexivity|].
  assert (E : forall l, String.concat EmptyString (a :: l)
                        = a ++ String.concat EmptyString l).
  { intros [|x l]; simpl; [now rewrite PyStrFacts.sapp_nil_r | reflexivity]. }
  change ((a :: l1) ++ l2)%list with (a :: (l1 ++ l2))%list.
  now rewrite !E, IH, PyStrFacts.sapp_assoc.
Qed.

(** The text extracted from a PDF is its pages put end to end in their
    order: a failure to open the file is passed on, and the text of a
    file whose pages are those of two parts is the text of the first
    followed by the text of the second. *)
Theorem extract_text_concatenates (pdf_path : string) :
  (forall e, pdf_pages b pdf_path = Err e ->
             extract_text_from_pdf b pdf_path = Err e) /\
  (forall first second,
      pdf_pages b pdf_path = Ok (first ++ second)%list ->
      extract_text_from_pdf b pdf_path
      = Ok (String.concat EmptyString first
            ++ String.concat EmptyString second)) /\
  (pdf_pages b pdf_path = Ok [] ->
   extract_text_from_pdf b pdf_path = Ok EmptyString).
Proof.
  unfold extract_text_from_pdf, rbind. repeat split.
  - now intros e ->.
  - intros first second ->.
    now rewrite fold_append_from, concat_empty_app.
  - now intros ->.
Qed.

(** A collection that already holds points is reused as it is: whatever
    the PDF now contains, [create_vector_store] writes nothing to the
    server. The PDF is read all the same, before the server is asked, so
    an unreadable file makes the call fail although nothing of it was
    needed. *)
Theorem create_vector_store_keeps_existing (pdf_path : string) (s : store)
  (n : nat) :
  get_collection b QDRANT_COLLECTION s = Ok n -> 0 < n ->
  (forall text, extract_text_from_pdf b pdf_path = Ok text ->
                create_vector_store b pdf_path s = (Ok tt, s)) /\
  (forall e, extract_text_from_pdf b pdf_path = Err e ->
             create_vector_store b pdf_path s = (Err e, s)).
Proof.
  intros Hn Hpos. unfold create_vector_store. split.
  - intros text ->. rewrite Hn.
    destruct (Nat.ltb_spec 0 n); [reflexivity | lia].
  - now intros e ->.
Qed.

(** With a client that counts points, indexing is idempotent: after a
    successful [create_vector_store] of a PDF that gives at least one
    chunk, a second call succeeds and leaves the server as it is. *)
Theorem create_vector_store_idempotent (pdf_path text : string)
  (s s1 : store) :
  counts_points b ->
  extract_text_from_pdf b pdf_path = Ok text ->
  split_text b text <> [] ->
  create_vector_store b pdf_path s = (Ok tt, s1) ->
  create_vector_store b pdf_path s1 = (Ok tt, s1) /\
  exists n, get_collection b QDRANT_COLLECTION s1 = Ok n /\ 0 < n.
Proof.
  intros (Hcreate & Hfrom & _) Htext Hchunks H1.
  assert (Hlen : 0 < length (split_text b text)).
  { destruct (split_text b text); [congruence | simpl; lia]. }
  assert (Hready : exists n, get_collection b QDRANT_COLLECTION s1 = Ok n
                             /\ 0 < n).
  { unfold create_vector_store in H1. rewrite Htext in H1.
    destruct (get_collection b QDRANT_COLLECTION s) as [n|e] eqn:Hg.
    - destruct (Nat.ltb_spec 0 n) as [Hpos|Hzero].
      + injection H1 as <-. now exists n.
      + exists (n + length (split_text b text)). split; [|lia].
        now apply (Hfrom _ _ s).
    - destruct (create_collection b QDRANT_COLLECTION s) as [[[]|e'] s']
        eqn:Hc; [|discriminate].
      exists (0 + length (split_text b text)). split; [|lia].
      apply (Hfrom _ _ s'); [|assumption]. now apply (Hcreate _ s). }
  split; [|exact Hready].
  destruct Hready as (n & Hn & Hpos).
  unfold create_vector_store. rewrite Htext, Hn.
  destruct (Nat.ltb_spec 0 n); [reflexivity | lia].
Qed.

(** With a client that counts points, [add_documents_to_store] is not
    idempotent: each successful call adds every chunk of the PDF again, so
    two calls raise the number of points by twice the number of chunks. *)
Theorem add_documents_to_store_accumulates (pdf_path text : string)
  (s s1 s2 : store) (n : nat) :
  counts_points b ->
  extract_text_from_pdf b pdf_path = Ok text ->
  get_collection b QDRANT_COLLECTION s = Ok n ->
  add_documents_to_store b pdf_path s = (Ok tt, s1) ->
  add_documents_to_store b pdf_path s1 = (Ok tt, s2) ->
  get_collection b QDRANT_COLLECTION s2
  = Ok (n + 2 * length (split_text b text)).
Proof.
  intros (_ & _ & Hadd) Htext Hn H1 H2.
  unfold add_documents_to_store in H1, H2. rewrite Htext in H1, H2.
  pose proof (Hadd _ _ _ _ _ Hn H1) as Hn1.
  rewrite (Hadd _ _ _ _ _ Hn1 H2). f_equal. lia.
Qed.

(** The start-up never touches the server when the PDF is absent, and it
    reports the store as ready only when the PDF exists, the indexing
    succeeded and the collection can be read afterwards. *)
Theorem initialize_vector_store_ready (s : store) :
  (path_exists b PDF_PATH = false ->
   initialize_vector_store b s = (false, s)) /\
  (fst (initialize_vector_store b s) = true ->
   path_exists b PDF_PATH = true /\
   create_vector_store b PDF_PATH s
   = (Ok tt, snd (initialize_vector_store b s)) /\
   exists n,
     get_collection b QDRANT_COLLECTION (snd (initialize_vector_store b s))
     = Ok n).
Proof.
  unfold initialize_vector_store. split.
  - now intros ->.
  - destruct (path_exists b PDF_PATH); [|discriminate].
    destruct (create_vector_store b PDF_PATH s) as [[[]|e] s'];
      [|discriminate].
    destruct (get_collection b QDRANT_COLLECTION s') as [n|e] eqn:Hn;
      [|discriminate].
    intros _. simpl. rewrite Hn. repeat split. now exists n.
Qed.

End VectorStoreFacts.

(** ** The properties at the concrete services *)

Module Checks.

Import PyStr Samples.

Local Abbreviation process_ := (process_query_async json_loads_table format_scalar).

(** The routing examples of the specification: only an output that
    normalizes to [weather] selects the weather node. *)
Example routing_examples :
  map (fun raw =>
         next_node Router
           (merge london_state [SetRoute (lower (strip raw))]))
    ["weather"; " Weather" ++ nl; "WEATHER  "; "pdf"; "document"; "banana";
     EmptyString; "weather."]
  = [Some Weather; Some Weather; Some Weather; Some RagRetrieval;
     Some RagRetrieval; Some RagRetrieval; Some RagRetrieval;
     Some RagRetrieval].
Proof. reflexivity. Qed.

Lemma branch_selection_witness :
  llm svc_london (RouterPrompt (question london_state)) = Ok (" Weather" ++ nl)
  /\ outcome (router_node svc_london london_state) = Ok [SetRoute "weather"]
  /\ next_node Router (merge london_state [SetRoute "weather"]) = Some Weather.
Proof.
  pose proof (branch_selection json_loads_table format_scalar svc_london
                london_state (" Weather" ++ nl) 3 eq_refl) as (H1 & H2 & _).
  split; [reflexivity|]. split; [exact H1 | exact H2].
Defined.

(** C2 at the classifier output [banana]: the router stores the word as
    the route, which is neither of the two labels; the document branch
    runs (four passages are retrieved), and the [/query] endpoint, which
    shows the passages only under the route [pdf], drops them. *)
Theorem router_stores_unrecognized_route :
  outcome (router_node svc_banana (initial_state "What is a banana?"))
  = Ok [SetRoute "banana"] /\
  (exists final,
      outcome (process_ svc_banana "What is a banana?") = Ok final /\
      route final = "banana" /\
      route final <> "weather" /\ route final <> "pdf" /\
      length (retrieved_docs final) = 4) /\
  (exists r,
      query json_loads_table format_scalar validation_text svc_banana
        "What is a banana?"
      = Ok r /\
      r_route r = "banana" /\ r_retrieved_docs r = None /\
      r_weather_data r = None).
Proof.
  split; [reflexivity|]. split.
  - eexists. split; [vm_compute; reflexivity|].
    repeat split; try reflexivity; discriminate.
  - eexists. split; [vm_compute; reflexivity|]. now repeat split.
Qed.

(** C3 fails as stated: with no candidate the reranker is called, and
    when it refuses the empty list the context is an error text. *)
Lemma rerank_invoked_on_empty_candidates :
  similarity_search svc_empty_index (question kalam_state) RETRIEVAL_TOP_K
  = Ok [] /\
  In (Rerank (question kalam_state) [] RERANK_TOP_N)
     (trace (rag_retrieval_node svc_empty_index kalam_state)) /\
  outcome (rag_retrieval_node svc_empty_index kalam_state)
  = Ok [SetRetrievedDocs [];
        SetContext "Error retrieving documents: documents must not be empty";
        SetRerankScores []].
Proof.
  split; [reflexivity|]. split; [|reflexivity].
  simpl. right. now left.
Qed.

Lemma empty_candidates_witness :
  trace (rag_retrieval_node svc_empty_index kalam_state)
  = [SimilaritySearch "Who was APJ Abdul Kalam?" 10;
     Rerank "Who was APJ Abdul Kalam?" [] 3].
Proof.
  exact (proj1 (empty_candidates_still_reranked svc_empty_index kalam_state
                  eq_refl)).
Defined.

Lemma london_well_formed :
  well_formed_weather london_response (JStr "London") (JStr "GB") (JInt 15)
    (JInt 13) (JInt 80) (JStr "cloudy") (JInt 5).
Proof.
  exists (JObj [("country", JStr "GB")]),
    (JObj [("temp", JInt 15); ("feels_like", JInt 13); ("humidity", JInt 80)]),
    (JArr [JObj [("description", JStr "cloudy")]]),
    (JObj [("description", JStr "cloudy")]),
    (JObj [("speed", JInt 5)]).
  repeat split.
Defined.

Lemma weather_context_witness :
  exists ctx,
    outcome (weather_node format_scalar svc_london london_state)
    = Ok [SetWeatherData london_response; SetContext ctx] /\
    occurs_in ("Location: London, GB" ++ nl) ctx /\
    occurs_in ("Temperature: 15" ++ degree ++ "C" ++ nl) ctx /\
    occurs_in ("Feels Like: 13" ++ degree ++ "C" ++ nl) ctx /\
    occurs_in ("Humidity: 80%" ++ nl) ctx /\
    occurs_in ("Weather: cloudy" ++ nl) ctx /\
    occurs_in ("Wind Speed: 5 m/s" ++ nl) ctx.
Proof.
  destruct (weather_context_complete format_scalar svc_london london_state
              "London" london_response _ _ _ _ _ _ _ eq_refl eq_refl
              london_well_formed)
    as (ctx & H1 & _ & _ & H2 & H3 & H4 & H5 & H6 & H7).
  exists ctx. repeat split; assumption.
Defined.

(** C5 fails as stated: the fetch fails, the stage degrades, and the
    language model then fails at the answer, so the query ends in that
    failure and not in a final state. *)
Lemma fetch_failure_then_generation_failure :
  http_get_json svc_pune_no_answer "Pune" = Err "Timeout error" /\
  outcome (weather_node format_scalar svc_pune_no_answer pune_state)
  = Ok [SetWeatherData (JObj []);
        SetContext "Error fetching weather data: Timeout error"] /\
  outcome (process_ svc_pune_no_answer "Weather in Pune?")
  = Err "Connection error.".
Proof. repeat split. Qed.

Lemma weather_degradation_witness :
  exists final,
    outcome (process_ svc_pune_degraded "Weather in Pune?") = Ok final /\
    weather_data final = JObj [] /\
    context final = "Error fetching weather data: Timeout error" /\
    generation final = "I could not fetch the weather for Pune.".
Proof.
  destruct (weather_fetch_failure_degrades json_loads_table format_scalar
              svc_pune_degraded "Weather in Pune?" "weather" "Pune"
              "Timeout error" "I could not fetch the weather for Pune."
              eq_refl eq_refl eq_refl (or_introl eq_refl))
    as (_ & _ & _ & H).
  destruct (H eq_refl) as (final & H1 & H2 & H3 & H4 & _).
  exists final. repeat split; assumption.
Defined.

(** C6 fails as stated: the reranker of the tests answers with four
    results although three were asked for, and the stage passes the four
    on. *)
Lemma rerank_returns_four :
  cohere_rerank svc_kalam (question kalam_state) kalam_documents RERANK_TOP_N
  = Ok (combine (firstn 4 kalam_documents) four_scores) /\
  outcome (rag_retrieval_node svc_kalam kalam_state)
  = Ok [SetRetrievedDocs (firstn 4 kalam_documents);
        SetContext (join (nl ++ nl) (firstn 4 kalam_documents));
        SetRerankScores four_scores] /\
  length (firstn 4 kalam_documents) = 4 /\
  RERANK_TOP_N < length (firstn 4 kalam_documents).
Proof. repeat split. simpl. unfold RERANK_TOP_N. lia. Qed.

Lemma rerank_order_witness :
  exists passages scores,
    outcome (rag_retrieval_node svc_kalam kalam_state)
    = Ok [SetRetrievedDocs passages;
          SetContext (join (nl ++ nl) passages);
          SetRerankScores scores] /\
    length passages = 4 /\ length scores = 4 /\
    nth_error passages 1
    = Some "Kalam served as the 11th President of India from 2002 to 2007." /\
    nth_error scores 1 = Some (90 # 100)%Q.
Proof.
  destruct (rerank_order_preserved svc_kalam kalam_state kalam_documents
              (combine (firstn 4 kalam_documents) four_scores)
              eq_refl eq_refl)
    as (passages & scores & H1 & _ & _ & _ & H2 & H3 & H4 & _).
  exists passages, scores.
  split; [exact H1|]. split; [exact H2|]. split; [exact H3|].
  now apply H4.
Defined.

Lemma evaluation_parse_witness :
  clean_eval_result rubric_fenced = nl ++ rubric_json ++ nl /\
  exists ev,
    outcome (evaluation_node json_loads_table svc_london london_state)
    = Ok [SetEvaluation ev] /\
    ev = rubric_scores.
Proof.
  destruct (evaluation_parse_policy json_loads_table format_scalar svc_london
              london_state rubric_fenced 0 eq_refl)
    as (H1 & _ & _ & ev & Hev & Hok & _).
  split.
  - apply (H1 EmptyString (nl ++ rubric_json ++ nl) EmptyString);
      reflexivity.
  - exists ev. split; [exact Hev|]. now apply Hok.
Defined.

(** The rubric examples of the specification: the fenced object is
    decoded to its three scores, and a text that is not JSON gives the
    error map. *)
Example evaluation_examples :
  outcome (evaluation_node json_loads_table svc_london london_state)
  = Ok [SetEvaluation
          (JObj [("relevance", JInt 8); ("accuracy", JInt 9);
                 ("completeness", JInt 7)])] /\
  outcome (evaluation_node json_loads_table svc_pune_degraded pune_state)
  = Ok [SetEvaluation
          (JObj [("error",
                  JStr "Expecting value: line 1 column 1 (char 0)")])].
Proof. split; reflexivity. Qed.

(** C8 fails as stated: the router and the generation would both answer,
    yet the query fails, because the call that extracts the city does. *)
Lemma location_failure_is_hard_error :
  llm svc_no_city (RouterPrompt "What's the weather in London?")
  = Ok "weather" /\
  (forall c q, llm svc_no_city (WeatherAnswerPrompt c q) = Ok "It is sunny.") /\
  (forall c q, llm svc_no_city (PdfAnswerPrompt c q) = Ok "It is sunny.") /\
  llm svc_no_city (LocationPrompt "What's the weather in London?")
  = Err "Rate limit exceeded" /\
  outcome (process_ svc_no_city "What's the weather in London?")
  = Err "Rate limit exceeded".
Proof. repeat split. Qed.

(** The batch of the specification: three questions, the classifier
    fails on the second. *)
Example batch_example :
  exists responses,
    batch_query json_loads_table format_scalar validation_text svc_batch
      batch_questions = Ok responses /\
    map (fun r => (r_question r, r_route r, r_answer r)) responses
    = [("What's the weather in London?", "weather",
        "It is 15 degrees and cloudy in London.");
       ("Is the router up?", "error", "Error: Connection error.");
       ("Who was APJ Abdul Kalam?", "pdf",
        "Kalam was the 11th President of India.")].
Proof. eexists. split; vm_compute; reflexivity. Qed.

(** C9 at a batch whose evaluator answers with the number 8. The pipeline
    of the first question ends with the evaluation 8 and that of the
    second fails in the router; the response of the first question is
    then refused by the response model, outside any handler, and the whole
    batch ends in that error: no response is returned, neither the error
    marker of the second question nor the response of the third. The
    [/query] endpoint, which builds its response inside its handler,
    reports the same error for the first question alone. *)
Theorem batch_raises_on_non_object_evaluation :
  (exists final,
      outcome (process_ svc_eight "What's the weather in London?") = Ok final
      /\ evaluation final = JInt 8) /\
  outcome (process_ svc_eight "Is the router up?") = Err "Connection error." /\
  batch_query json_loads_table format_scalar validation_text svc_eight
    batch_questions
  = Err (validation_text [("evaluation", JInt 8)]) /\
  query json_loads_table format_scalar validation_text svc_eight
    "What's the weather in London?"
  = Err ("Error processing query: "
         ++ validation_text [("evaluation", JInt 8)]).
Proof.
  split; [eexists; split; [vm_compute; reflexivity | reflexivity]|].
  repeat split; vm_compute; reflexivity.
Qed.

(** A weather question from the start of the graph to its end: the
    route is [weather], the context holds the temperature and the humidity
    of the response, the answer is not empty and the evaluation is the map
    of the three scores. *)
Example weather_end_to_end :
  exists final,
    outcome (process_ svc_london "What's the weather in London?") = Ok final /\
    route final = "weather" /\
    contains "15" (context final) = true /\
    contains "80" (context final) = true /\
    weather_data final = london_response /\
    generation final <> EmptyString /\
    evaluation final = rubric_scores /\
    trace (process_ svc_london "What's the weather in London?")
    = [CallLLM (RouterPrompt "What's the weather in London?");
       CallLLM (LocationPrompt "What's the weather in London?");
       HttpGet "London";
       CallLLM (WeatherAnswerPrompt (context final)
                  "What's the weather in London?");
       CallLLM (EvalPrompt "What's the weather in London?" (context final)
                  "It is 15 degrees and cloudy in London.")].
Proof.
  eexists. split; [vm_compute; reflexivity|].
  repeat split; try reflexivity. discriminate.
Qed.

Lemma final_state_invariants_witness :
  exists final,
    outcome (process_ svc_kalam "Who was APJ Abdul Kalam?") = Ok final /\
    question final = "Who was APJ Abdul Kalam?" /\
    length (retrieved_docs final) = length (rerank_scores final) /\
    weather_data final = JObj [].
Proof.
  eexists. split; [vm_compute; reflexivity|].
  destruct (final_state_invariants json_loads_table format_scalar svc_kalam
              "Who was APJ Abdul Kalam?" _ eq_refl) as (H1 & H2 & _ & H4).
  split; [exact H1|]. split; [exact H2|]. apply H4. discriminate.
Defined.

Lemma evaluation_judges_witness :
  exists final before,
    outcome (process_ svc_london "What's the weather in London?") = Ok final /\
    llm svc_london (generation_prompt final) = Ok (generation final) /\
    trace (process_ svc_london "What's the weather in London?")
    = (before
       ++ [CallLLM (generation_prompt final);
           CallLLM (EvalPrompt "What's the weather in London?"
                      (context final) (generation final))])%list.
Proof.
  eexists.
  assert (H : outcome (process_ svc_london "What's the weather in London?")
              = Ok _) by (vm_compute; reflexivity).
  destruct (evaluation_judges_final_answer json_loads_table format_scalar
              svc_london "What's the weather in London?" _ H)
    as (H1 & before & H2).
  exists before. split; [exact H|]. split; [exact H1 | exact H2].
Defined.

Lemma context_holds_witness :
  exists p,
    outcome (rag_retrieval_node svc_kalam kalam_state) = Ok p /\
    occurs_in "He received the Bharat Ratna in 1997."
      (context (merge kalam_state p)).
Proof.
  destruct (context_holds_every_passage svc_kalam kalam_state kalam_documents
              (combine (firstn 4 kalam_documents) four_scores)
              eq_refl eq_refl) as (p & H1 & H2).
  exists p. split; [exact H1|].
  apply (H2 _ (80 # 100)%Q). simpl. auto 6.
Defined.

Lemma fenced_output_witness :
  contains "```" rubric_fenced = true /\
  contains "```" (clean_eval_result rubric_fenced) = false.
Proof.
  split; [reflexivity|].
  exact (fenced_output_loses_every_marker rubric_fenced eq_refl).
Defined.

Lemma weather_malformed_witness :
  outcome (weather_node format_scalar svc_not_found pune_state)
  = Ok [SetWeatherData (JObj []);
        SetContext "Error fetching weather data: 'name'"].
Proof.
  exact (proj1 (weather_malformed_response format_scalar svc_not_found
                  pune_state " Atlantis " not_found_body eq_refl eq_refl)
           _ eq_refl eq_refl).
Defined.

Lemma sample_backend_counts_points : counts_points sample_backend.
Proof.
  repeat split.
  - intros c [docs|] s'; simpl; [discriminate|]. now intros [= <-].
  - intros docs c [old|] s' n; simpl; [|discriminate].
    intros [= <-] [= <-]. simpl. now rewrite length_app.
  - intros docs c [old|] s' n; simpl; [|discriminate].
    intros [= <-] [= <-]. simpl. now rewrite length_app.
Qed.

Lemma keeps_existing_witness :
  create_vector_store sample_backend PDF_PATH (Some ["an older document"])
  = (Ok tt, Some ["an older document"]).
Proof.
  exact (proj1 (create_vector_store_keeps_existing one_collection
                  sample_backend PDF_PATH (Some ["an older document"]) 1
                  eq_refl (le_n 1))
           _ eq_refl).
Defined.

Lemma idempotent_witness :
  create_vector_store sample_backend PDF_PATH None
  = (Ok tt, Some ["Kalam was born in Rameswaram. ";
                  "He became President in 2002."]) /\
  create_vector_store sample_backend PDF_PATH
    (Some ["Kalam was born in Rameswaram. "; "He became President in 2002."])
  = (Ok tt, Some ["Kalam was born in Rameswaram. ";
                  "He became President in 2002."]).
Proof.
  split; [reflexivity|].
  refine (proj1 (create_vector_store_idempotent one_collection sample_backend
                   PDF_PATH _ None _ sample_backend_counts_points eq_refl _
                   eq_refl)).
  discriminate.
Defined.

Lemma accumulates_witness :
  get_collection sample_backend QDRANT_COLLECTION
    (Some ["an older document";
           "Kalam was born in Rameswaram. "; "He became President in 2002.";
           "Kalam was born in Rameswaram. "; "He became President in 2002."])
  = Ok 5.
Proof.
  exact (add_documents_to_store_accumulates one_collection sample_backend
           PDF_PATH _ (Some ["an older document"]) _ _ 1
           sample_backend_counts_points eq_refl eq_refl eq_refl eq_refl).
Defined.

End Checks.
